(** * ChatHub browser client: the real-time connection manager

    A shallow embedding of [chathub-frontend/src/context/SocketContext.js]
    (the [SocketProvider] component), of the parts of the room view
    [pages/Chat.js] and of the private conversation view
    [pages/PrivateChat.js] that talk to it, and of the validation of the
    registration form, followed by the properties of the connection
    manager's specification that can be settled on them and by further
    properties of the code.

    The provider keeps its state in React refs and React state and reacts
    to three kinds of stimuli: transport events, calls of the functions it
    exports through the context, and timers it has armed itself.  The
    embedding threads that state explicitly, records everything observable
    (events emitted on the socket, toasts, console warnings) in a log, and
    keeps the armed timers in the state, so that a delayed callback runs
    against the state of the moment it fires. *)

From Stdlib Require Import ZArith Lia Ascii String List.
From stdpp Require Import base decidable option list strings gmap sorting pretty.

(* stdpp's solvers clear hypotheses that may already be gone *)
#[local] Set Warnings "-clear-no-such-hyp".

Local Open Scope string_scope.
Local Open Scope Z_scope.
Local Open Scope list_scope.

(** ** JavaScript values and coercions *)

Module Js.

(** Payloads arrive as parsed JSON.  Numbers are kept as integers: no
    handler modelled here computes with them. *)
#[warnings="-register-all"]
Inductive JsVal : Type :=
| JUndefined
| JNull
| JBool (b : bool)
| JNum (z : Z)
| JStr (s : string)
| JArr (elts : list JsVal)
| JObj (fields : list (string * JsVal)).

(** Primitive values, on which [===] is structural. *)
Inductive JsPrim : Type :=
| PUndefined
| PNull
| PBool (b : bool)
| PNum (z : Z)
| PStr (s : string).

#[global] Instance JsPrim_eq_dec : EqDecision JsPrim.
Proof. solve_decision. Defined.

(** [a === b] on primitives. *)
Definition strict_eq (a b : JsPrim) : bool := bool_decide (a = b).

(** What a thrown exception carries; the handlers below only ever meet
    the [TypeError] of a property read on [null] or [undefined]. *)
Inductive JsError : Type :=
| TypeError (msg : string).

Inductive Completion (A : Type) : Type :=
| Normal (a : A)
| Throw (e : JsError).
Arguments Normal {A} a.
Arguments Throw {A} e.

(** Truthiness of a value. *)
Definition truthy (v : JsVal) : bool :=
  match v with
  | JUndefined | JNull => false
  | JBool b => b
  | JNum z => negb (Z.eqb z 0)
  | JStr s => negb (String.eqb s "")
  | JArr _ | JObj _ => true
  end.

(** A variable holding a string, or [null]/[undefined] ([None]). *)
Definition truthy_str (o : option string) : bool :=
  match o with
  | Some s => negb (String.eqb s "")
  | None => false
  end.

(** [Array.isArray(v)] *)
Definition isArray (v : JsVal) : bool :=
  match v with
  | JArr _ => true
  | _ => false
  end.

Fixpoint assoc (k : string) (fields : list (string * JsVal)) : JsVal :=
  match fields with
  | [] => JUndefined
  | (k', v) :: rest => if String.eqb k k' then v else assoc k rest
  end.

(** [v.k]: reading a property of [null] or [undefined] throws, any other
    value answers (with [undefined] when it has no such own property;
    nothing in the repository extends the built-in prototypes). *)
Definition get_prop (v : JsVal) (k : string) : Completion JsVal :=
  match v with
  | JUndefined => Throw (TypeError "Cannot read properties of undefined")
  | JNull => Throw (TypeError "Cannot read properties of null")
  | JObj fields => Normal (assoc k fields)
  | JBool _ | JNum _ | JStr _ | JArr _ => Normal JUndefined
  end.

(** White space removed by [String.prototype.trim], restricted to the
    one-byte code points. *)
Definition is_space (c : ascii) : bool :=
  let n := nat_of_ascii c in
  ((9 <=? n)%nat && (n <=? 13)%nat) || (n =? 32)%nat.

Fixpoint trim_left (s : string) : string :=
  match s with
  | String c rest => if is_space c then trim_left rest else s
  | EmptyString => EmptyString
  end.

Fixpoint rev_string (s acc : string) : string :=
  match s with
  | String c rest => rev_string rest (String c acc)
  | EmptyString => acc
  end.

(** [s.trim()] *)
Definition trim (s : string) : string :=
  rev_string (trim_left (rev_string (trim_left s) "")) "".



End Js.

Import Js.

(** ** The socket provider

    Every handler and exported function that writes a ref or React state
    of the provider is embedded.  Left out are the handlers that only
    write to the console or turn a server error code into a toast
    ([reconnect_attempt], [reconnect_error], [connection_status], [error],
    [pong], the sent/joined/left confirmations), the latency monitor, the
    subscription helpers ([onMessage] and the like) and [forceReconnect].

    The handlers of the first effect close over the [user] of the render
    that ran the effect; since the effect is torn down and run again
    whenever [user] changes, that is the [user] of the state. *)

Module SocketContext.

(** *** What the provider does to the outside *)

(** Events emitted on the socket, with their payload fields. *)
Inductive OutEvent : Type :=
| user_connected (username room_name : string)
| leave (username room : string)
| who_is_online (room_name : string)
| send_message (username content room_name : string)
| join_private (with_ : string)
| send_private_message (to content : string).

Inductive ToastKind : Type := ToastSuccess | ToastError | ToastPlain.
Inductive ConsoleLevel : Type := Warn | Error.

(** [console.log] lines are left out; warnings and errors are kept. *)
Inductive Effect : Type :=
| Emit (e : OutEvent)
| Toast (k : ToastKind) (msg : string)
| Console (l : ConsoleLevel) (msg : string)
| SocketConnect
| SocketDisconnect.

(** *** Timers

    A [setTimeout] callback is kept as data: which closure it is and the
    variables that closure captured when it was created. *)
Inductive TimerAction : Type :=
| ExpireJoinedUser (username : string)
| RequestOnlineUsers (connected : bool) (roomName : string)
| ResetJoinInProgress (roomName : string)
| DelayedJoinPrivate (friendUsername : string)
| DelayedSendPrivate (toUsername content : string).

Record Timer : Type := mkTimer {
  timer_id : nat;
  timer_due : Z;
  timer_action : TimerAction
}.

(** *** State *)

Record State : Type := mkState {
  (* from useAuth(): the username of [user], [None] when [user] is null *)
  user : option string;
  (* useState *)
  connected : bool;
  onlineUsers : list JsVal;
  (* useRef; [socketRef] records whether [socketRef.current] is set *)
  socketRef : bool;
  currentRoomRef : option string;
  isConnectingRef : bool;
  joinedUsersRef : gset string;
  socketInitializedRef : bool;
  roomJoinInProgressRef : bool;
  lastJoinedRoomRef : option string;
  roomJoinTimeoutRef : option nat;
  (* the event loop: clock in milliseconds, timer ids, armed timers *)
  now : Z;
  nextTimerId : nat;
  timers : list Timer
}.

Definition set_connected (v : bool) (s : State) : State :=
  mkState (user s) v (onlineUsers s) (socketRef s) (currentRoomRef s)
    (isConnectingRef s) (joinedUsersRef s) (socketInitializedRef s)
    (roomJoinInProgressRef s) (lastJoinedRoomRef s) (roomJoinTimeoutRef s)
    (now s) (nextTimerId s) (timers s).

Definition set_onlineUsers (v : list JsVal) (s : State) : State :=
  mkState (user s) (connected s) v (socketRef s) (currentRoomRef s)
    (isConnectingRef s) (joinedUsersRef s) (socketInitializedRef s)
    (roomJoinInProgressRef s) (lastJoinedRoomRef s) (roomJoinTimeoutRef s)
    (now s) (nextTimerId s) (timers s).

Definition set_socketRef (v : bool) (s : State) : State :=
  mkState (user s) (connected s) (onlineUsers s) v (currentRoomRef s)
    (isConnectingRef s) (joinedUsersRef s) (socketInitializedRef s)
    (roomJoinInProgressRef s) (lastJoinedRoomRef s) (roomJoinTimeoutRef s)
    (now s) (nextTimerId s) (timers s).

Definition set_currentRoomRef (v : option string) (s : State) : State :=
  mkState (user s) (connected s) (onlineUsers s) (socketRef s) v
    (isConnectingRef s) (joinedUsersRef s) (socketInitializedRef s)
    (roomJoinInProgressRef s) (lastJoinedRoomRef s) (roomJoinTimeoutRef s)
    (now s) (nextTimerId s) (timers s).

Definition set_isConnectingRef (v : bool) (s : State) : State :=
  mkState (user s) (connected s) (onlineUsers s) (socketRef s)
    (currentRoomRef s) v (joinedUsersRef s) (socketInitializedRef s)
    (roomJoinInProgressRef s) (lastJoinedRoomRef s) (roomJoinTimeoutRef s)
    (now s) (nextTimerId s) (timers s).

Definition set_joinedUsersRef (v : gset string) (s : State) : State :=
  mkState (user s) (connected s) (onlineUsers s) (socketRef s)
    (currentRoomRef s) (isConnectingRef s) v (socketInitializedRef s)
    (roomJoinInProgressRef s) (lastJoinedRoomRef s) (roomJoinTimeoutRef s)
    (now s) (nextTimerId s) (timers s).

Definition set_socketInitializedRef (v : bool) (s : State) : State :=
  mkState (user s) (connected s) (onlineUsers s) (socketRef s)
    (currentRoomRef s) (isConnectingRef s) (joinedUsersRef s) v
    (roomJoinInProgressRef s) (lastJoinedRoomRef s) (roomJoinTimeoutRef s)
    (now s) (nextTimerId s) (timers s).

Definition set_roomJoinInProgressRef (v : bool) (s : State) : State :=
  mkState (user s) (connected s) (onlineUsers s) (socketRef s)
    (currentRoomRef s) (isConnectingRef s) (joinedUsersRef s)
    (socketInitializedRef s) v (lastJoinedRoomRef s) (roomJoinTimeoutRef s)
    (now s) (nextTimerId s) (timers s).

Definition set_lastJoinedRoomRef (v : option string) (s : State) : State :=
  mkState (user s) (connected s) (onlineUsers s) (socketRef s)
    (currentRoomRef s) (isConnectingRef s) (joinedUsersRef s)
    (socketInitializedRef s) (roomJoinInProgressRef s) v
    (roomJoinTimeoutRef s) (now s) (nextTimerId s) (timers s).

Definition set_roomJoinTimeoutRef (v : option nat) (s : State) : State :=
  mkState (user s) (connected s) (onlineUsers s) (socketRef s)
    (currentRoomRef s) (isConnectingRef s) (joinedUsersRef s)
    (socketInitializedRef s) (roomJoinInProgressRef s)
    (lastJoinedRoomRef s) v (now s) (nextTimerId s) (timers s).

Definition set_now (v : Z) (s : State) : State :=
  mkState (user s) (connected s) (onlineUsers s) (socketRef s)
    (currentRoomRef s) (isConnectingRef s) (joinedUsersRef s)
    (socketInitializedRef s) (roomJoinInProgressRef s)
    (lastJoinedRoomRef s) (roomJoinTimeoutRef s) v (nextTimerId s)
    (timers s).

Definition set_nextTimerId (v : nat) (s : State) : State :=
  mkState (user s) (connected s) (onlineUsers s) (socketRef s)
    (currentRoomRef s) (isConnectingRef s) (joinedUsersRef s)
    (socketInitializedRef s) (roomJoinInProgressRef s)
    (lastJoinedRoomRef s) (roomJoinTimeoutRef s) (now s) v (timers s).

Definition set_timers (v : list Timer) (s : State) : State :=
  mkState (user s) (connected s) (onlineUsers s) (socketRef s)
    (currentRoomRef s) (isConnectingRef s) (joinedUsersRef s)
    (socketInitializedRef s) (roomJoinInProgressRef s)
    (lastJoinedRoomRef s) (roomJoinTimeoutRef s) (now s) (nextTimerId s) v.

(** The refs as [useRef] initialises them, for a signed-in [u]. *)
Definition initial (u : option string) : State :=
  mkState u false [] false None false ∅ false false None None 0 1%nat [].

(** *** A state-and-log monad with exceptions *)

Definition M (A : Type) : Type :=
  State → Completion A * State * list Effect.

#[global] Instance M_ret : MRet M :=
  λ A a s, (Normal a, s, []).

#[global] Instance M_bind : MBind M :=
  λ A B f m s,
    match m s with
    | (Normal a, s1, log1) =>
        match f a s1 with
        | (r, s2, log2) => (r, s2, log1 ++ log2)
        end
    | (Throw e, s1, log1) => (Throw e, s1, log1)
    end.

Definition get : M State := λ s, (Normal s, s, []).
Definition modify (f : State → State) : M unit := λ s, (Normal tt, f s, []).
Definition tell (e : Effect) : M unit := λ s, (Normal tt, s, [e]).
Definition throw {A} (e : JsError) : M A := λ s, (Throw e, s, []).
Definition skip : M unit := mret tt.

(** [try { body } catch (e) { handler e }] *)
Definition try_catch {A} (body : M A) (handler : JsError → M A) : M A :=
  λ s,
    match body s with
    | (Normal a, s1, log1) => (Normal a, s1, log1)
    | (Throw e, s1, log1) =>
        match handler e s1 with
        | (r, s2, log2) => (r, s2, log1 ++ log2)
        end
    end.

(** Lifting a pure computation that may throw. *)
Definition lift {A} (c : Completion A) : M A := λ s, (c, s, []).

Definition emit (e : OutEvent) : M unit := tell (Emit e).
Definition toast_success (msg : string) : M unit := tell (Toast ToastSuccess msg).
Definition toast_error (msg : string) : M unit := tell (Toast ToastError msg).
Definition toast_plain (msg : string) : M unit := tell (Toast ToastPlain msg).
Definition console_warn (msg : string) : M unit := tell (Console Warn msg).
Definition console_error (msg : string) : M unit := tell (Console Error msg).

(** Projections of a run. *)
Definition result_of {A} (r : Completion A * State * list Effect) : Completion A := r.1.1.
Definition state_of {A} (r : Completion A * State * list Effect) : State := r.1.2.
Definition log_of {A} (r : Completion A * State * list Effect) : list Effect := r.2.

(** *** The timer queue *)

(** Armed timers are kept ordered by due time, first armed first among
    equals, which is the order in which the browser runs them. *)
Fixpoint insert_timer (x : Timer) (l : list Timer) : list Timer :=
  match l with
  | [] => [x]
  | y :: l' =>
      if bool_decide (timer_due y ≤ timer_due x)
      then y :: insert_timer x l'
      else x :: l
  end.

(** [setTimeout(action, delay)], answering the timer's id. *)
Definition setTimeout (action : TimerAction) (delay : Z) : M nat :=
  s ← get;
  let id := nextTimerId s in
  modify (set_timers (insert_timer (mkTimer id (now s + delay) action) (timers s)));;
  modify (set_nextTimerId (S id));;
  mret id.

(** [clearTimeout(id)] *)
Definition clearTimeout (id : nat) : M unit :=
  modify (λ s, set_timers (filter (λ t, timer_id t ≠ id) (timers s)) s).

(** *** Small helpers for the JavaScript idioms of the source *)

(** [user.username]; a [TypeError] when [user] is null. *)
Definition user_username : M string :=
  s ← get;
  match user s with
  | Some me => mret me
  | None => throw (TypeError "Cannot read properties of null (reading 'username')")
  end.

(** [content.trim()] on a variable that may hold no string. *)
Definition trim_method (content : option string) : Completion string :=
  match content with
  | Some c => Normal (trim c)
  | None => Throw (TypeError "Cannot read properties of undefined (reading 'trim')")
  end.

(** [content?.trim()] *)
Definition trim_optional (content : option string) : option string :=
  trim <$> content.

(** Browser timer ids are positive, so a stored id is truthy. *)
Definition timer_truthy (r : option nat) : option nat :=
  match r with
  | Some id => if Nat.eqb id 0 then None else Some id
  | None => None
  end.

(** [if (ref.current) clearTimeout(ref.current)] *)
Definition clear_if_set (r : option nat) : M unit :=
  match timer_truthy r with
  | Some id => clearTimeout id
  | None => skip
  end.

(** [haystack.includes(needle)] *)
Fixpoint includes (needle haystack : string) : bool :=
  String.prefix needle haystack ||
  match haystack with
  | String _ rest => includes needle rest
  | EmptyString => false
  end.

(** *** Transport event handlers (registered in the first [useEffect]) *)

(** [newSocket.on('connect', ...)], lines 78-94. *)
Definition on_connect : M unit :=
  modify (set_connected true);;
  modify (set_socketRef true);;
  modify (set_isConnectingRef false);;
  modify (set_socketInitializedRef true);;
  toast_success "Connected to ChatHub! 🌐".

(** [newSocket.on('connect_error', ...)], lines 96-122. *)
Definition on_connect_error (message : string) : M unit :=
  console_error "Connection failed";;
  modify (set_connected false);;
  modify (set_isConnectingRef false);;
  modify (set_socketInitializedRef false);;
  if includes "CORS" message then
    toast_error "Connection failed: CORS error"
  else if includes "timeout" message then
    toast_error "Connection timeout. Please check your connection."
  else if includes "version" message then
    toast_error "Connection failed: Version mismatch"
  else if includes "xhr" message then
    toast_error "Cannot reach server. Please check if server is running."
  else
    toast_error "Connection failed. Please try refreshing the page.".

(** [newSocket.on('disconnect', ...)], lines 124-165. *)
Definition on_disconnect (reason : string) : M unit :=
  modify (set_connected false);;
  modify (set_socketInitializedRef false);;
  modify (set_joinedUsersRef ∅);;
  modify (set_roomJoinInProgressRef false);;
  modify (set_lastJoinedRoomRef None);;
  s ← get;
  clear_if_set (roomJoinTimeoutRef s);;
  if String.eqb reason "io server disconnect" then
    toast_error "Server disconnected. Reconnecting...";;
    tell SocketConnect
  else if String.eqb reason "io client disconnect" then skip
  else if String.eqb reason "ping timeout" then
    toast_error "Connection timed out. Reconnecting..."
  else if String.eqb reason "transport close" then skip
  else if String.eqb reason "transport error" then skip
  else
    (* default: the inner test always holds here *)
    if negb (String.eqb reason "io client disconnect") then
      toast_error "Connection lost. Attempting to reconnect..."
    else skip.

(** [newSocket.on('reconnect', ...)], lines 167-180. *)
Definition on_reconnect : M unit :=
  modify (set_connected true);;
  modify (set_socketInitializedRef true);;
  modify (set_joinedUsersRef ∅);;
  modify (set_roomJoinInProgressRef false);;
  toast_success "Reconnected to ChatHub! 🎉".

(** [newSocket.on('reconnect_failed', ...)], lines 190-194. *)
Definition on_reconnect_failed : M unit :=
  console_error "All reconnection attempts failed";;
  toast_error "Failed to reconnect. Please refresh the page.".

(** [newSocket.on('connection_confirmed', ...)], lines 201-205. *)
Definition on_connection_confirmed : M unit :=
  modify (set_roomJoinInProgressRef false).

(** [newSocket.on('online_users', ...)], lines 250-270. *)
Definition online_users_unexpected : M unit :=
  console_warn "online_users payload format unexpected";;
  modify (set_onlineUsers []).

Definition on_online_users (data : JsVal) : M unit :=
  try_catch
    (match data with
     | JArr users => modify (set_onlineUsers users)
     | _ =>
         if truthy data then
           data_users ← lift (get_prop data "users");
           match data_users with
           | JArr users => modify (set_onlineUsers users)
           | _ => online_users_unexpected
           end
         else online_users_unexpected
     end)
    (λ e,
       console_error "online_users handler error";;
       modify (set_onlineUsers [])).

(** The payload of [user_joined] and [user_left]: an object that may
    carry a [username] string.  [None] stands for a missing payload. *)
Record UserEvent : Type := mkUserEvent { username : option string }.

(** [data?.username] *)
Definition data_username (data : option UserEvent) : option string :=
  data ≫= username.

(** [newSocket.on('user_joined', ...)], lines 273-291. *)
Definition on_user_joined (data : option UserEvent) : M unit :=
  match data_username data with
  | Some name =>
      if truthy_str (Some name) then
        me ← user_username;
        if negb (String.eqb name me) then
          s ← get;
          if negb (bool_decide (name ∈ joinedUsersRef s)) then
            toast_success (name +:+ " joined the room");;
            modify (λ s, set_joinedUsersRef ({[name]} ∪ joinedUsersRef s) s);;
            setTimeout (ExpireJoinedUser name) 5000;;
            skip
          else skip
        else skip
      else skip
  | None => skip
  end.

(** [newSocket.on('user_left', ...)], lines 293-301. *)
Definition on_user_left (data : option UserEvent) : M unit :=
  match data_username data with
  | Some name =>
      if truthy_str (Some name) then
        me ← user_username;
        if negb (String.eqb name me) then
          toast_plain (name +:+ " left the room");;
          modify (λ s, set_joinedUsersRef (joinedUsersRef s ∖ {[name]}) s)
        else skip
      else skip
  | None => skip
  end.

(** The effect's cleanup function, lines 346-368.  [socket_connected] is
    [newSocket.connected], a flag kept by the transport library. *)
Definition cleanup (socket_connected : bool) : M unit :=
  (if socket_connected then tell SocketDisconnect else skip);;
  modify (set_connected false);;
  modify (set_onlineUsers []);;
  modify (set_socketRef false);;
  modify (set_currentRoomRef None);;
  modify (set_isConnectingRef false);;
  modify (set_socketInitializedRef false);;
  modify (set_joinedUsersRef ∅);;
  modify (set_roomJoinInProgressRef false);;
  modify (set_lastJoinedRoomRef None);;
  s ← get;
  clear_if_set (roomJoinTimeoutRef s).

(** *** Functions exported through the context *)

(** The first [if] of [joinRoom], lines 408-420. *)
Definition joinRoom_rejected : M unit :=
  s ← get;
  console_warn "Cannot join room - missing requirements";;
  if negb (connected s) then toast_error "Not connected to server" else skip.

(** [joinRoom(roomName)], lines 407-464. *)
Definition joinRoom (roomName : option string) : M unit :=
  s ← get;
  match roomName with
  | Some room =>
      if negb (socketRef s) || negb (bool_decide (is_Some (user s)))
         || negb (truthy_str roomName) || negb (connected s)
         || negb (socketInitializedRef s)
      then joinRoom_rejected
      else if roomJoinInProgressRef s
              && bool_decide (lastJoinedRoomRef s = roomName)
      then skip
      else if bool_decide (currentRoomRef s = roomName)
              && negb (roomJoinInProgressRef s)
      then skip
      else
        modify (set_roomJoinInProgressRef true);;
        modify (set_lastJoinedRoomRef roomName);;
        modify (set_currentRoomRef roomName);;
        clear_if_set (roomJoinTimeoutRef s);;
        me ← user_username;
        emit (user_connected me room);;
        setTimeout (RequestOnlineUsers (connected s) room) 1000;;
        id ← setTimeout (ResetJoinInProgress room) 3000;
        modify (set_roomJoinTimeoutRef (Some id))
  | None => joinRoom_rejected
  end.

(** [leaveRoom(roomName)], lines 466-482. *)
Definition leaveRoom (roomName : option string) : M unit :=
  s ← get;
  match roomName with
  | Some room =>
      if socketRef s && bool_decide (is_Some (user s)) && truthy_str roomName
      then
        (if bool_decide (roomName = currentRoomRef s) then
           modify (set_roomJoinInProgressRef false);;
           modify (set_currentRoomRef None);;
           modify (set_lastJoinedRoomRef None)
         else skip);;
        me ← user_username;
        emit (leave me room)
      else skip
  | None => skip
  end.

(** The [else] branch of [sendMessage], lines 496-515. *)
Definition sendMessage_rejected (content : option string) : M bool :=
  s ← get;
  console_warn "Cannot send message - missing requirements";;
  (if negb (connected s) then
     toast_error "Not connected to server"
   else if negb (socketInitializedRef s) then
     toast_error "Socket not initialized. Please refresh the page."
   else if negb (truthy_str (trim_optional content)) then
     toast_error "Message cannot be empty"
   else skip);;
  mret false.

(** [sendMessage(roomName, content)], lines 484-516.  The condition is a
    chain of [&&] evaluated left to right: [content.trim()] is reached
    as soon as the socket and the user are there. *)
Definition sendMessage (roomName content : option string) : M bool :=
  s ← get;
  if socketRef s && bool_decide (is_Some (user s)) then
    trimmed ← lift (trim_method content);
    match roomName with
    | Some room =>
        if truthy_str (Some trimmed) && truthy_str roomName
           && connected s && socketInitializedRef s
        then
          me ← user_username;
          emit (send_message me trimmed room);;
          mret true
        else sendMessage_rejected content
    | None => sendMessage_rejected content
    end
  else sendMessage_rejected content.

(** [joinPrivateRoom(friendUsername)], lines 518-548. *)
Definition joinPrivateRoom (friendUsername : option string) : M unit :=
  s ← get;
  match friendUsername with
  | Some friend =>
      if socketRef s && bool_decide (is_Some (user s))
         && truthy_str friendUsername && connected s
      then
        if negb (socketInitializedRef s) then
          me ← user_username;
          emit (user_connected me "Chat Room 1");;
          modify (set_socketInitializedRef true);;
          setTimeout (DelayedJoinPrivate friend) 500;;
          skip
        else emit (join_private friend)
      else if negb (connected s) then toast_error "Not connected to server"
      else skip
  | None =>
      if negb (connected s) then toast_error "Not connected to server"
      else skip
  end.

(** The [else] branch of [sendPrivateMessage], lines 580-598. *)
Definition sendPrivateMessage_rejected (content : option string) : M bool :=
  s ← get;
  (if negb (connected s) then
     toast_error "Not connected to server"
   else if negb (socketInitializedRef s) then
     (if socketRef s && bool_decide (is_Some (user s)) then
        me ← user_username;
        emit (user_connected me "Chat Room 1");;
        modify (set_socketInitializedRef true)
      else skip);;
     toast_error "Initializing connection..."
   else if negb (truthy_str (trim_optional content)) then
     toast_error "Message cannot be empty"
   else skip);;
  mret false.

(** [sendPrivateMessage(toUsername, content)], lines 550-599. *)
Definition sendPrivateMessage (toUsername content : option string) : M bool :=
  s ← get;
  if socketRef s && bool_decide (is_Some (user s)) then
    trimmed ← lift (trim_method content);
    match toUsername with
    | Some to =>
        if truthy_str (Some trimmed) && truthy_str toUsername && connected s
        then
          (if negb (socketInitializedRef s) then
             me ← user_username;
             emit (user_connected me "Chat Room 1");;
             modify (set_socketInitializedRef true);;
             setTimeout (DelayedSendPrivate to trimmed) 500;;
             skip
           else emit (send_private_message to trimmed));;
          mret true
        else sendPrivateMessage_rejected content
    | None => sendPrivateMessage_rejected content
    end
  else sendPrivateMessage_rejected content.

(** *** Timer callbacks *)

Definition fire (a : TimerAction) : M unit :=
  match a with
  | ExpireJoinedUser name =>
      (* line 285 *)
      modify (λ s, set_joinedUsersRef (joinedUsersRef s ∖ {[name]}) s)
  | RequestOnlineUsers connected_then room =>
      (* lines 453-457; [connected] is the value the closure captured *)
      s ← get;
      if socketRef s && connected_then
         && bool_decide (currentRoomRef s = Some room)
      then emit (who_is_online room)
      else skip
  | ResetJoinInProgress _ =>
      (* lines 460-463 *)
      modify (set_roomJoinInProgressRef false)
  | DelayedJoinPrivate friend =>
      (* lines 533-539 *)
      s ← get;
      if socketRef s then emit (join_private friend) else skip
  | DelayedSendPrivate to trimmed =>
      (* lines 563-571 *)
      s ← get;
      if socketRef s then emit (send_private_message to trimmed) else skip
  end.

Fixpoint fire_all (due : list Timer) : M unit :=
  match due with
  | [] => skip
  | t :: rest =>
      modify (λ s, set_now (Z.max (now s) (timer_due t)) s);;
      fire (timer_action t);;
      fire_all rest
  end.

(** Letting the clock reach [t]: every timer due by then runs, in queue
    order, before anything else happens at [t]. *)
Definition advance (t : Z) : M unit :=
  s ← get;
  modify (set_timers (filter (λ tm, ¬ timer_due tm ≤ t) (timers s)));;
  fire_all (filter (λ tm, timer_due tm ≤ t) (timers s));;
  modify (λ s, set_now (Z.max (now s) t) s).

(** *** The event loop *)

Inductive Input : Type :=
| Connect
| ConnectError (message : string)
| Disconnect (reason : string)
| Reconnect
| ReconnectFailed
| ConnectionConfirmed
| OnlineUsers (data : JsVal)
| UserJoined (data : option UserEvent)
| UserLeft (data : option UserEvent)
| CallJoinRoom (roomName : option string)
| CallLeaveRoom (roomName : option string)
| CallSendMessage (roomName content : option string)
| CallJoinPrivateRoom (friendUsername : option string)
| CallSendPrivateMessage (toUsername content : option string)
| Cleanup (socket_connected : bool).

Definition handle (i : Input) : M unit :=
  match i with
  | Connect => on_connect
  | ConnectError message => on_connect_error message
  | Disconnect reason => on_disconnect reason
  | Reconnect => on_reconnect
  | ReconnectFailed => on_reconnect_failed
  | ConnectionConfirmed => on_connection_confirmed
  | OnlineUsers data => on_online_users data
  | UserJoined data => on_user_joined data
  | UserLeft data => on_user_left data
  | CallJoinRoom roomName => joinRoom roomName
  | CallLeaveRoom roomName => leaveRoom roomName
  | CallSendMessage roomName content => sendMessage roomName content;; skip
  | CallJoinPrivateRoom friendUsername => joinPrivateRoom friendUsername
  | CallSendPrivateMessage toUsername content =>
      sendPrivateMessage toUsername content;; skip
  | Cleanup socket_connected => cleanup socket_connected
  end.

(** One turn of the loop: input [i] arrives at time [t]. *)
Definition step (t : Z) (i : Input) : M unit :=
  advance t;; handle i.

(** An uncaught exception ends the turn it was thrown in, not the
    page: the loop goes on with the next input. *)
Fixpoint run (trace : list (Z * Input)) (s : State) : State * list Effect :=
  match trace with
  | [] => (s, [])
  | (t, i) :: rest =>
      let r := step t i s in
      let r' := run rest (state_of r) in
      (r'.1, log_of r ++ r'.2)
  end.

(** *** Reading a log *)

Definition is_join_announcement (room : string) (e : Effect) : bool :=
  match e with
  | Emit (user_connected _ r) => String.eqb r room
  | _ => false
  end.

Definition is_leave_announcement (room : string) (e : Effect) : bool :=
  match e with
  | Emit (leave _ r) => String.eqb r room
  | _ => false
  end.

Definition is_membership_announcement (e : Effect) : bool :=
  match e with
  | Emit (user_connected _ _) => true
  | _ => false
  end.

Definition is_emit (e : Effect) : bool :=
  match e with
  | Emit _ => true
  | _ => false
  end.

Definition is_toast (e : Effect) : bool :=
  match e with
  | Toast _ _ => true
  | _ => false
  end.

Definition count (p : Effect → bool) (log : list Effect) : nat :=
  length (List.filter p log).

End SocketContext.

(** ** The room view ([pages/Chat.js]) *)

Module Chat.

(** A [receive_message] payload, which is also the element type of the
    view's [messages] state.  Server ids are numbers, the ids of the
    optimistic local copies are strings. *)
Record Message : Type := mkMessage {
  id : JsPrim;
  room_name : option string;
  username : option string;
  content : string;
  timestamp : string;
  is_mod : bool;
  is_system : bool
}.

(** [prev.some(msg => msg.id === message.id)] *)
Definition isDuplicate (prev : list Message) (message : Message) : bool :=
  existsb (λ msg, strict_eq (id msg) (id message)) prev.

(** [handleNewMessage], the listener installed by the third effect of
    the component, as a function of the [messages] state.
    [decodedRoomName] and [mountedRef] are what the closure reads;
    [None] is a missing payload. *)
Definition handleNewMessage (decodedRoomName : string) (mountedRef : bool)
    (message : option Message) (prev : list Message) : list Message :=
  match message with
  | None => prev
  | Some m =>
      if negb (truthy_str (room_name m))
         || negb (bool_decide (room_name m = Some decodedRoomName))
      then prev
      else if negb mountedRef then prev
      else if isDuplicate prev m then prev
      else prev ++ [m]
  end.

(** *** Joining and leaving as the route changes (lines 132-167)

    [previousRoomRef] and [roomInitializedRef] are refs of the component;
    [joinRoom], [leaveRoom] and [connected] come from the provider. *)
Record RoomRefs : Type := mkRoomRefs {
  previousRoomRef : option string;
  roomInitializedRef : bool
}.

(** The body of the room-management effect for the room [decodedRoomName].
    The boolean answered tells whether the effect returned its cleanup
    function (it returns none when it stops at the first test). *)
Definition room_effect (decodedRoomName : string) (refs : RoomRefs)
    : SocketContext.M (RoomRefs * bool) :=
  s ← SocketContext.get;
  if negb (truthy_str (Some decodedRoomName)) || negb (SocketContext.connected s)
  then mret (refs, false)
  else
    refs1 ←
      (if truthy_str (previousRoomRef refs)
          && negb (bool_decide (previousRoomRef refs = Some decodedRoomName))
       then
         SocketContext.leaveRoom (previousRoomRef refs);;
         mret (mkRoomRefs (previousRoomRef refs) false)
       else mret refs);
    refs2 ←
      (if negb (roomInitializedRef refs1)
          || negb (bool_decide (previousRoomRef refs1 = Some decodedRoomName))
       then
         SocketContext.joinRoom (Some decodedRoomName);;
         mret (mkRoomRefs (previousRoomRef refs1) true)
       else mret refs1);
    mret (mkRoomRefs (Some decodedRoomName) (roomInitializedRef refs2), true).

(** The cleanup function that effect returned for [decodedRoomName]. *)
Definition room_cleanup (decodedRoomName : string) (refs : RoomRefs)
    : SocketContext.M RoomRefs :=
  if bool_decide (previousRoomRef refs = Some decodedRoomName) then
    SocketContext.leaveRoom (Some decodedRoomName);;
    mret (mkRoomRefs (previousRoomRef refs) false)
  else mret refs.

(** The component between two renders: its refs and the room whose
    cleanup function React holds, if any. *)
Record RoomView : Type := mkRoomView {
  room_refs : RoomRefs;
  cleanup_for : option string
}.

(** The component as first mounted. *)
Definition mounted_view : RoomView :=
  mkRoomView (mkRoomRefs None false) None.

(** What React does when [decodedRoomName] or [connected] has changed:
    the cleanup of the previous run, then the effect anew. *)
Definition run_room_effect (decodedRoomName : string) (v : RoomView)
    : SocketContext.M RoomView :=
  refs1 ←
    match cleanup_for v with
    | Some old => room_cleanup old (room_refs v)
    | None => mret (room_refs v)
    end;
  room_effect decodedRoomName refs1 ≫= λ r : RoomRefs * bool,
  mret (mkRoomView r.1 (if r.2 then Some decodedRoomName else None)).

(** *** Sending (lines 237-282)

    [handleSendMessage] is an [async] function with one [await], on the
    REST call of the fallback.  It is embedded as the part that runs up to
    that [await] and the part that runs when the call has settled, each
    against the state the component has at that moment. *)
Record Composer : Type := mkComposer {
  messages : list Message;
  newMessage : string;
  sending : bool;
  mountedRef : bool
}.

Inductive SendPhase : Type :=
| SendDone
| AwaitSendMessage (roomName content : string).

(** Up to the [await], or to the end when it is not reached.  A throw of
    the provider's [sendMessage] lands in the [catch]. *)
Definition handleSendMessage_begin (decodedRoomName : string) (c : Composer)
    : SocketContext.M (Composer * SendPhase) :=
  if negb (truthy_str (Some (trim (newMessage c)))) || sending c
  then mret (c, SendDone)
  else
    let content := trim (newMessage c) in
    SocketContext.try_catch
      (s ← SocketContext.get;
       messageSent ←
         (if SocketContext.connected s
          then SocketContext.sendMessage (Some decodedRoomName) (Some content)
          else mret false);
       if negb messageSent then
         mret (mkComposer (messages c) (newMessage c) true (mountedRef c),
               AwaitSendMessage decodedRoomName content)
       else
         mret (mkComposer (messages c) "" false (mountedRef c), SendDone))
      (λ e,
         SocketContext.console_error "Error sending message";;
         SocketContext.toast_error "Failed to send message";;
         mret (mkComposer (messages c) (newMessage c) false (mountedRef c),
               SendDone)).

(** After the [await].  [posted] tells whether the REST call resolved;
    [date_now] and [iso_now] are [Date.now()] and
    [new Date().toISOString()]; [user] is the signed-in user's name and
    moderator flag. *)
Definition handleSendMessage_resume (decodedRoomName content : string)
    (posted : bool) (user : option (string * bool)) (date_now : Z)
    (iso_now : string) (c : Composer) : SocketContext.M Composer :=
  if posted then
    let optimistic :=
      mkMessage (PStr ("local-" +:+ pretty date_now))
        (Some decodedRoomName) (fst <$> user) content iso_now
        (match user with Some (_, m) => m | None => false end) false in
    mret (mkComposer
            (if mountedRef c then messages c ++ [optimistic] else messages c)
            "" false (mountedRef c))
  else
    SocketContext.console_error "Error sending message";;
    SocketContext.toast_error "Failed to send message";;
    mret (mkComposer (messages c) (newMessage c) false (mountedRef c)).

(** *** Relative time stamps (lines 291-304)

    [formatTimestamp] compares and floors quotients of millisecond
    counts.  For integer counts below 2^53 the quotient by 60000 or
    3600000 is never within rounding distance of an integer it has not
    reached, so the comparisons and [Math.floor] agree with integer
    division.  [None] is [new Date(timestamp)] for a string that is not
    a date, on which every comparison fails. *)
Inductive TimeLabel : Type :=
| JustNow
| MinutesAgo (minutes : Z)
| HoursAgo (hours : Z)
| LocaleDate.

Definition timeLabel (now : Z) (date : option Z) : TimeLabel :=
  match date with
  | Some d =>
      if bool_decide (now - d < 1000 * 60 * 60) then
        let minutes := (now - d) `div` (1000 * 60) in
        if bool_decide (minutes < 1) then JustNow else MinutesAgo minutes
      else if bool_decide (now - d < 24 * (1000 * 60 * 60)) then
        HoursAgo ((now - d) `div` (1000 * 60 * 60))
      else LocaleDate
  | None => LocaleDate
  end.

(** [toLocaleDateString] is the browser's, in the browser's locale. *)
Definition formatTimestamp (toLocaleDateString : option Z → string)
    (now : Z) (date : option Z) : string :=
  match timeLabel now date with
  | JustNow => "Just now"
  | MinutesAgo minutes => pretty minutes +:+ "m ago"
  | HoursAgo hours => pretty hours +:+ "h ago"
  | LocaleDate => toLocaleDateString date
  end.

End Chat.

(** ** The private conversation view ([pages/PrivateChat.js]) *)

Module PrivateChat.

(** A [receive_private_message] payload. *)
Record Incoming : Type := mkIncoming {
  in_id : JsPrim;
  from : option string;
  to : option string;
  in_content : string;
  in_timestamp : string;
  in_is_mod : option bool
}.

Record Sender : Type := mkSender {
  sender_id : option Z;
  sender_username : option string;
  sender_is_mod : bool
}.

(** An element of the view's [messages] state. *)
Record Message : Type := mkMessage {
  id : JsPrim;
  sender : Sender;
  content : string;
  timestamp : string;
  read : bool
}.

(** [user] and [friend] as the component holds them. *)
Record Person : Type := mkPerson {
  person_id : Z;
  person_username : string
}.

(** [p?.username] and [p?.id] *)
Definition opt_username (p : option Person) : option string :=
  person_username <$> p.
Definition opt_id (p : option Person) : option Z :=
  person_id <$> p.

(** [message.from === user?.username ? user.id : friend?.id]; the
    first branch reads [user.id] without the guard. *)
Definition sender_id_of (user friend : option Person) (message : Incoming)
    : Completion (option Z) :=
  if bool_decide (from message = opt_username user) then
    match user with
    | Some u => Normal (Some (person_id u))
    | None => Throw (TypeError "Cannot read properties of null (reading 'id')")
    end
  else Normal (opt_id friend).

Definition isDuplicate (prev : list Message) (message : Incoming) : bool :=
  existsb (λ msg, strict_eq (id msg) (in_id message)) prev.

(** Is the message part of the conversation on display? *)
Definition for_this_chat (user friend : option Person) (message : Incoming) : bool :=
  (bool_decide (from message = opt_username friend)
     && bool_decide (to message = opt_username user))
  || (bool_decide (to message = opt_username friend)
        && bool_decide (from message = opt_username user)).

(** [handlePrivateMessage], as a function of the [messages] state. *)
Definition handlePrivateMessage (user friend : option Person)
    (message : Incoming) (prev : list Message) : Completion (list Message) :=
  if for_this_chat user friend message then
    if isDuplicate prev message then Normal prev
    else
      match sender_id_of user friend message with
      | Normal sid =>
          let formattedMessage :=
            mkMessage (in_id message)
              (mkSender sid (from message)
                 (match in_is_mod message with Some b => b | None => false end))
              (in_content message) (in_timestamp message) false in
          Normal (prev ++ [formattedMessage])
      | Throw e => Throw e
      end
  else Normal prev.

(** *** Sending (lines 145-190)

    As in the room view, [handleSendMessage] is embedded as the part up
    to the [await] on the REST call and the part after it. *)
Record Composer : Type := mkComposer {
  messages : list Message;
  newMessage : string;
  sending : bool
}.

Inductive SendPhase : Type :=
| SendDone
| AwaitSendPrivateMessage (content : string).

Definition handleSendMessage_begin (friend : option Person) (c : Composer)
    : SocketContext.M (Composer * SendPhase) :=
  match friend with
  | Some f =>
      if negb (truthy_str (Some (trim (newMessage c)))) || sending c
      then mret (c, SendDone)
      else
        let content := trim (newMessage c) in
        SocketContext.try_catch
          (s ← SocketContext.get;
           messageSent ←
             (if SocketContext.connected s
              then SocketContext.sendPrivateMessage
                     (Some (person_username f)) (Some content)
              else mret false);
           if negb messageSent then
             mret (mkComposer (messages c) (newMessage c) true,
                   AwaitSendPrivateMessage content)
           else mret (mkComposer (messages c) "" false, SendDone))
          (λ e,
             SocketContext.console_error "Error sending private message";;
             SocketContext.toast_error "Failed to send message";;
             mret (mkComposer (messages c) (newMessage c) false, SendDone))
  | None => mret (c, SendDone)
  end.

(** After the [await]; [user_is_mod] is [!!user?.is_mod]. *)
Definition handleSendMessage_resume (content : string) (posted : bool)
    (user : option Person) (user_is_mod : bool) (date_now : Z)
    (iso_now : string) (c : Composer) : SocketContext.M Composer :=
  if posted then
    let optimistic :=
      mkMessage (PStr ("local-" +:+ pretty date_now))
        (mkSender (opt_id user) (opt_username user) user_is_mod)
        content iso_now false in
    mret (mkComposer (messages c ++ [optimistic]) "" false)
  else
    SocketContext.console_error "Error sending private message";;
    SocketContext.toast_error "Failed to send message";;
    mret (mkComposer (messages c) (newMessage c) false).

End PrivateChat.

(** ** The registration form ([pages/Register.js]) *)

Module Register.




(** [s.length], for strings of one-byte code points. *)
Definition length (s : string) : Z := Z.of_nat (String.length s).


End Register.

(** * Properties *)

Import SocketContext.

(** ** Scenarios and vocabulary of the properties *)

(** Carol signs in at time 0 and the handshake succeeds. *)
Definition carol_connected : State :=
  (run [(0, Connect)] (initial (Some "carol"))).1.

(** A live connection: what [joinRoom] and [sendMessage] insist on. *)
Definition live (s : State) : Prop :=
  socketRef s = true ∧ is_Some (user s) ∧ connected s = true
  ∧ socketInitializedRef s = true.

(** Carol asks for room A and, ten milliseconds later, for room B. *)
Definition carol_switches : State * list Effect :=
  run [(10, CallJoinRoom (Some "A")); (20, CallJoinRoom (Some "B"))]
    carol_connected.

Definition is_leave (e : Effect) : bool :=
  match e with
  | Emit (leave _ _) => true
  | _ => false
  end.

(** When [joinRoom] returns early through one of its two loop guards. *)
Definition join_is_noop (s : State) (room : string) : bool :=
  (roomJoinInProgressRef s && bool_decide (lastJoinedRoomRef s = Some room))
  || (bool_decide (currentRoomRef s = Some room)
        && negb (roomJoinInProgressRef s)).

(** Carol has joined a room when the transport drops. *)
Definition carol_in_room : State :=
  (run [(10, CallJoinRoom (Some "Chat Room 1"))] carol_connected).1.

Definition carol_dropped : State :=
  (run [(5000, Disconnect "transport close")] carol_in_room).1.

Definition carol_in_A : State :=
  (run [(10, CallJoinRoom (Some "A"))] carol_connected).1.

(** The fields no timer callback writes. *)
Definition same_session (s s' : State) : Prop :=
  user s' = user s ∧ connected s' = connected s ∧ socketRef s' = socketRef s
  ∧ socketInitializedRef s' = socketInitializedRef s
  ∧ currentRoomRef s' = currentRoomRef s
  ∧ lastJoinedRoomRef s' = lastJoinedRoomRef s
  ∧ onlineUsers s' = onlineUsers s
  ∧ roomJoinTimeoutRef s' = roomJoinTimeoutRef s
  ∧ nextTimerId s' = nextTimerId s.

(** Log entries a timer callback never produces. *)
Definition quiet (e : Effect) : Prop :=
  is_membership_announcement e = false ∧ is_toast e = false
  ∧ is_leave e = false.

(** What holds from the first announcement for [room] until the room is
    left or another one is joined. *)
Definition joined_inv (room : string) (s : State) : Prop :=
  currentRoomRef s = Some room ∧ lastJoinedRoomRef s = Some room.

(** The inputs under which a join of [room] stays a repetition. *)
Definition repeats (room : string) (i : Input) : Prop :=
  i = CallJoinRoom (Some room) ∨ i = ConnectionConfirmed.

(** The order of the timer queue. *)
Definition due_order (a b : Timer) : Prop := timer_due a ≤ timer_due b.

(** [name] is not tracked and no expiry is armed for it. *)
Definition fresh (name : string) (s : State) : Prop :=
  (name ∉ joinedUsersRef s)
  ∧ (∀ tm, tm ∈ timers s → timer_action tm ≠ ExpireJoinedUser name).

(** [name] is tracked, and what is armed for it expires 5000 ms after
    [w], the time its notification was shown. *)
Definition tracked (name : string) (w : Z) (s : State) : Prop :=
  name ∈ joinedUsersRef s
  ∧ (∃ tm, tm ∈ timers s ∧ timer_action tm = ExpireJoinedUser name)
  ∧ (∀ tm, tm ∈ timers s → timer_action tm = ExpireJoinedUser name →
           timer_due tm = w + 5000).

Definition joined_event (name : string) : Input :=
  UserJoined (Some (mkUserEvent (Some name))).

Definition joined_toast (name : string) : Effect :=
  Toast ToastSuccess (name +:+ " joined the room").

(** The tracker's view of [name]: [None] when it is not tracked, [Some w]
    when its notification was shown at time [w] and has not expired. *)
Definition window_state (name : string) (window : option Z) (s : State) : Prop :=
  match window with
  | Some w => tracked name w s
  | None => fresh name s
  end.

(** Is a [user_joined] arriving at [t] shown? *)
Definition shown (window : option Z) (t : Z) : bool :=
  match window with
  | Some w => bool_decide (w + 5000 ≤ t)
  | None => true
  end.

(** Following the specification's words: a notification is suppressed when
    one was shown for the same username within the trailing five seconds;
    the first arrival after the window has expired is shown and starts
    the next window; a suppressed arrival does not move the window. *)
Fixpoint notified (window : option Z) (times : list Z) : list bool :=
  match times with
  | [] => []
  | t :: rest =>
      if shown window t
      then true :: notified (Some t) rest
      else false :: notified window rest
  end.

Fixpoint nondecreasing_from (lo : Z) (times : list Z) : Prop :=
  match times with
  | [] => True
  | t :: rest => lo ≤ t ∧ nondecreasing_from t rest
  end.

Definition roster_anomaly : Effect :=
  Console Warn "online_users payload format unexpected".

(** The payload is a list, bare or under [users]. *)
Definition roster_of (data : JsVal) : option (list JsVal) :=
  match data with
  | JArr users => Some users
  | JObj fields =>
      match assoc "users" fields with
      | JArr users => Some users
      | _ => None
      end
  | _ => None
  end.

(** Carol is in her room and the caller passes no content. *)
Definition send_without_content : Completion bool * State * list Effect :=
  sendMessage (Some "Chat Room 1") None carol_in_room.

(** Carol sends content but no room name. *)
Definition send_without_room : Completion bool * State * list Effect :=
  sendMessage None (Some "hi") carol_in_room.

Definition is_reset (a : TimerAction) : bool :=
  match a with
  | ResetJoinInProgress _ => true
  | _ => false
  end.

Definition is_roster_request (room : string) (e : Effect) : bool :=
  match e with
  | Emit (who_is_online r) => String.eqb r room
  | _ => false
  end.

Definition is_delayed_private (a : TimerAction) : bool :=
  match a with
  | DelayedJoinPrivate _ | DelayedSendPrivate _ _ => true
  | _ => false
  end.

(** A state of the provider as the handlers leave it: a connected socket
    is initialized; the room of the last join is the current room; a
    pending join has a room; timer ids are positive; the only join
    time-out armed is the one [roomJoinTimeoutRef] names; and no delayed
    private request is armed. *)
Definition wf (s : State) : Prop :=
  (connected s = true → socketInitializedRef s = true)
  ∧ (lastJoinedRoomRef s = None ∨ lastJoinedRoomRef s = currentRoomRef s)
  ∧ (roomJoinInProgressRef s = true → is_Some (lastJoinedRoomRef s))
  ∧ (0 < nextTimerId s)%nat
  ∧ (∀ tm, tm ∈ timers s →
       (0 < timer_id tm)%nat
       ∧ (is_reset (timer_action tm) = true →
          roomJoinTimeoutRef s = Some (timer_id tm))
       ∧ is_delayed_private (timer_action tm) = false).


Definition is_call (ti : Z * Input) : bool :=
  match ti.2 with
  | CallJoinRoom _ | CallLeaveRoom _ | CallSendMessage _ _
  | CallJoinPrivateRoom _ | CallSendPrivateMessage _ _ => true
  | _ => false
  end.

Definition silent_reason (reason : string) : bool :=
  String.eqb reason "io client disconnect"
  || String.eqb reason "transport close"
  || String.eqb reason "transport error".


(** The refs as [leaveRoom] leaves them when it leaves the current
    room. *)
Definition left_state (s : State) : State :=
  set_lastJoinedRoomRef None
    (set_currentRoomRef None (set_roomJoinInProgressRef false s)).

(** The room view as the route goes through [rooms], one after the
    other. *)
Fixpoint navigate (rooms : list string) (v : Chat.RoomView) : M Chat.RoomView :=
  match rooms with
  | [] => mret v
  | room :: rest => v' ← Chat.run_room_effect room v; navigate rest v'
  end.

(** The room view in [room] while the transport drops and comes back,
    rendering after each change of [connected]. *)
Definition drop_and_return (room reason : string) : M Chat.RoomView :=
  v1 ← Chat.run_room_effect room Chat.mounted_view;
  on_disconnect reason;;
  v2 ← Chat.run_room_effect room v1;
  on_reconnect;;
  Chat.run_room_effect room v2.



(** ** Proof tools *)

(** Unfolding the monad and the handlers down to matches on the state. *)
Create HintDb chathub discriminated.

#[local] Hint Unfold
  mbind mret M_bind M_ret get modify tell throw skip lift try_catch
  emit toast_success toast_error toast_plain console_warn console_error
  user_username setTimeout clearTimeout clear_if_set
  result_of state_of log_of
  on_connect on_connect_error on_disconnect on_reconnect on_reconnect_failed
  on_connection_confirmed on_online_users online_users_unexpected
  on_user_joined on_user_left cleanup
  joinRoom joinRoom_rejected leaveRoom sendMessage sendMessage_rejected
  joinPrivateRoom sendPrivateMessage sendPrivateMessage_rejected
  fire handle : chathub.

Ltac unfold_handlers := autounfold with chathub in *; cbn in *.

(** Deciding the tests that remain symbolic, smallest first. *)
Ltac case_tests :=
  repeat match goal with
         | |- context [String.eqb ?a ?b] => destruct (String.eqb a b) eqn:?; cbn
         | |- context [bool_decide ?P] => destruct (bool_decide P) eqn:?; cbn
         | |- context [timer_truthy ?r] => destruct (timer_truthy r) eqn:?; cbn
         | |- context [includes ?a ?b] => destruct (includes a b) eqn:?; cbn
         end.

(** Case analysis on the part of a state the guards of the exported
    functions look at. *)
Ltac destruct_guards s :=
  destruct s as [[me|] [] ? [] ? ? ? [] [] ? ? ? ? ?].

Ltac tests_to_props :=
  repeat match goal with
         | H : bool_decide _ = true |- _ => apply bool_decide_eq_true in H
         | H : bool_decide _ = false |- _ => apply bool_decide_eq_false in H
         | H : String.eqb _ _ = true |- _ => apply String.eqb_eq in H
         | H : String.eqb _ _ = false |- _ => apply String.eqb_neq in H
         end.

#[local] Arguments count : simpl never.

(** ** Lemmas and theorems *)

Lemma carol_connected_live : live carol_connected.
Proof. repeat split; try reflexivity. by exists "carol". Qed.

(** ** C1: the handshake *)

(** C1, refuted as stated: the handshake leaves [initialized] true, not
    false. *)
Lemma C1_connect_sets_initialized :
  socketInitializedRef (state_of (on_connect (initial (Some "carol")))) ≠ false.
Proof. vm_compute. discriminate. Qed.

(** C1 (as amended).  A successful handshake, first or repeated, sets
    [initialized] to true at once and joins no room: nothing is emitted on
    the socket and [currentRoom] keeps its value.  While the flag is
    false, [joinRoom] and [sendMessage] emit nothing and [sendMessage]
    does not report success. *)
Theorem C1_connected_marks_initialized_joins_no_room (s : State) :
  (result_of (on_connect s) = Normal tt
   ∧ socketInitializedRef (state_of (on_connect s)) = true
   ∧ count is_emit (log_of (on_connect s)) = 0%nat
   ∧ currentRoomRef (state_of (on_connect s)) = currentRoomRef s)
  ∧ (result_of (on_reconnect s) = Normal tt
     ∧ socketInitializedRef (state_of (on_reconnect s)) = true
     ∧ count is_emit (log_of (on_reconnect s)) = 0%nat
     ∧ currentRoomRef (state_of (on_reconnect s)) = currentRoomRef s)
  ∧ (∀ roomName content,
       let s' := set_socketInitializedRef false s in
       count is_emit (log_of (joinRoom roomName s')) = 0%nat
       ∧ count is_emit (log_of (sendMessage roomName content s')) = 0%nat
       ∧ result_of (sendMessage roomName content s') ≠ Normal true).
Proof.
  split; [|split].
  - destruct s; cbn; auto.
  - destruct s; cbn; auto.
  - intros [room|] [c|]; destruct_guards s; unfold_handlers; case_tests; auto.
Qed.

(** ** C2: switching rooms while a join is in flight *)

(** C2, refuted as stated: the second [joinRoom] announces no leave for
    the room of the first. *)
Lemma C2_no_leave_on_switch :
  count (is_leave_announcement "A") carol_switches.2 ≠ 1%nat
  ∧ carol_switches.2
    = [Emit (user_connected "carol" "A"); Emit (user_connected "carol" "B")].
Proof. split; [vm_compute; discriminate | reflexivity]. Qed.

(** [joinRoom] on a live connection: either nothing at all, or one
    announcement and the three refs set. *)
Lemma joinRoom_live (s : State) (room me : string) :
  live s → user s = Some me → room ≠ "" →
  let r := joinRoom (Some room) s in
  result_of r = Normal tt
  ∧ live (state_of r) ∧ user (state_of r) = Some me
  ∧ if join_is_noop s room
    then state_of r = s ∧ log_of r = []
    else log_of r = [Emit (user_connected me room)]
         ∧ currentRoomRef (state_of r) = Some room
         ∧ lastJoinedRoomRef (state_of r) = Some room
         ∧ roomJoinInProgressRef (state_of r) = true.
Proof.
  intros (Hsock & Hu & Hconn & Hinit) Hme Hroom.
  apply String.eqb_neq in Hroom.
  unfold live, join_is_noop.
  destruct s as [u c ? sr cur ? ? ini prog last tmo ? ? ?]; cbn in *; subst.
  unfold_handlers. rewrite Hroom. cbn.
  destruct prog, (bool_decide (last = Some room)),
    (bool_decide (cur = Some room)), (timer_truthy tmo); cbn; eauto 10.
Qed.

(** C2 (as amended).  On a live connection, for rooms A ≠ B, [joinRoom(A)]
    followed at once by [joinRoom(B)] emits no leave-announcement at all,
    emits exactly one join-announcement for B, and leaves
    [currentRoom = B] with the join to B pending. *)
Theorem C2_switch_joins_without_leave (s : State) (A B : string) :
  live s → A ≠ "" → B ≠ "" → A ≠ B →
  let r1 := joinRoom (Some A) s in
  let r2 := joinRoom (Some B) (state_of r1) in
  let log := log_of r1 ++ log_of r2 in
  count is_leave log = 0%nat
  ∧ count (is_join_announcement B) log = 1%nat
  ∧ currentRoomRef (state_of r2) = Some B
  ∧ lastJoinedRoomRef (state_of r2) = Some B
  ∧ roomJoinInProgressRef (state_of r2) = true.
Proof.
  intros Hlive HA HB HAB r1 r2 log.
  destruct (Hlive) as (_ & [me Hme] & _).
  destruct (joinRoom_live s A me Hlive Hme HA) as (_ & Hlive1 & Hme1 & H1).
  fold r1 in Hlive1, Hme1, H1.
  destruct (joinRoom_live _ B me Hlive1 Hme1 HB) as (_ & _ & _ & H2).
  fold r2 in H2.
  assert (Hnoop : join_is_noop (state_of r1) B = false).
  { unfold join_is_noop in *.
    destruct (roomJoinInProgressRef s) eqn:Hp,
      (bool_decide (lastJoinedRoomRef s = Some A)) eqn:Hl,
      (bool_decide (currentRoomRef s = Some A)) eqn:Hc; cbn in H1;
      try destruct H1 as [-> _]; try destruct H1 as (_ & -> & -> & ->);
      rewrite ?Hp;
      repeat match goal with
             | |- context [bool_decide ?P] => destruct (bool_decide P) eqn:?
             end;
      tests_to_props; cbn; try reflexivity; congruence. }
  rewrite Hnoop in H2. destruct H2 as (Hlog2 & -> & -> & ->).
  subst log. rewrite Hlog2.
  assert (HBB : String.eqb B B = true) by apply String.eqb_refl.
  assert (HABb : String.eqb A B = false) by by apply String.eqb_neq.
  destruct (join_is_noop s A); [destruct H1 as [_ ->] | destruct H1 as [-> _]];
    unfold count; cbn; rewrite ?HBB, ?HABb; auto.
Qed.

(** C2 at work: Carol's switch from A to B. *)
Lemma C2_switch_witness :
  live carol_connected
  ∧ count is_leave
      (log_of (joinRoom (Some "A") carol_connected)
       ++ log_of (joinRoom (Some "B")
                    (state_of (joinRoom (Some "A") carol_connected))))
    = 0%nat.
Proof.
  split; [apply carol_connected_live |].
  apply (C2_switch_joins_without_leave carol_connected "A" "B");
    [apply carol_connected_live | discriminate ..].
Defined.

(** ** C3: what a disconnect clears *)

(** C3, evaluated where it fails: after the disconnect the refs of the
    pending join and the tracker are reset, but [currentRoomRef] still
    names the room, unlike after the effect's cleanup; a [joinRoom] for
    that room after the reconnect is then taken for a repetition and
    announces nothing. *)
Theorem C3_disconnect_keeps_current_room :
  currentRoomRef carol_in_room = Some "Chat Room 1"
  ∧ currentRoomRef carol_dropped = Some "Chat Room 1"
  ∧ socketInitializedRef carol_dropped = false
  ∧ roomJoinInProgressRef carol_dropped = false
  ∧ lastJoinedRoomRef carol_dropped = None
  ∧ joinedUsersRef carol_dropped = ∅
  ∧ currentRoomRef (state_of (cleanup true carol_in_room)) = None
  ∧ (run [(9000, Reconnect); (9100, CallJoinRoom (Some "Chat Room 1"))]
       carol_dropped).2
    = [Toast ToastSuccess "Reconnected to ChatHub! 🎉"].
Proof. vm_compute. repeat split. Qed.

(** The same on every state and for every reason. *)
Lemma on_disconnect_fields (s : State) (reason : string) :
  let s' := state_of (on_disconnect reason s) in
  currentRoomRef s' = currentRoomRef s
  ∧ connected s' = false
  ∧ socketInitializedRef s' = false
  ∧ roomJoinInProgressRef s' = false
  ∧ lastJoinedRoomRef s' = None
  ∧ joinedUsersRef s' = ∅.
Proof.
  destruct s as [? ? ? ? ? ? ? ? ? ? tmo ? ? ?]. unfold_handlers.
  destruct (timer_truthy tmo); cbn; case_tests; repeat split.
Qed.

(** ** C4: leaving a room one is not in *)

(** C4, refuted as stated: leaving B while in A still announces the
    leave. *)
Lemma C4_leave_other_room_announced :
  Some "B" ≠ currentRoomRef carol_in_A
  ∧ log_of (leaveRoom (Some "B") carol_in_A) = [Emit (leave "carol" "B")].
Proof. split; [vm_compute; discriminate | reflexivity]. Qed.

(** C4 (as amended).  For a room name other than [currentRoom],
    [leaveRoom] changes nothing in the state (so [currentRoom], the
    pending join and its timer stay as they are); it still emits one
    leave-announcement for that name when the socket, the user and a
    non-empty name are there, and nothing otherwise. *)
Theorem C4_leave_other_room_keeps_state (s : State) (roomName : option string) :
  roomName ≠ currentRoomRef s →
  let r := leaveRoom roomName s in
  result_of r = Normal tt
  ∧ state_of r = s
  ∧ (∀ me room,
       socketRef s = true → user s = Some me → roomName = Some room →
       room ≠ "" → log_of r = [Emit (leave me room)])
  ∧ (socketRef s = false ∨ user s = None ∨ truthy_str roomName = false →
     log_of r = []).
Proof.
  intros Hne.
  destruct s as [u ? ? sr cur ? ? ? ? ? ? ? ? ?]; cbn in *.
  destruct roomName as [room|]; unfold_handlers.
  - destruct sr, u as [me|]; cbn;
      destruct (String.eqb room "") eqn:Hr; cbn;
      rewrite ?(bool_decide_eq_false_2 _ Hne); cbn;
      tests_to_props; repeat split;
      try reflexivity; try (intros; congruence);
      intros [?|[?|?]]; congruence.
  - repeat split; try reflexivity; intros; congruence.
Qed.

(** C4 at work: Carol, in A, leaves B. *)
Lemma C4_leave_other_room_witness :
  Some "B" ≠ currentRoomRef carol_in_A
  ∧ state_of (leaveRoom (Some "B") carol_in_A) = carol_in_A.
Proof.
  split; [vm_compute; discriminate |].
  apply (C4_leave_other_room_keeps_state carol_in_A (Some "B")).
  vm_compute; discriminate.
Defined.

(** ** What timers can and cannot do *)

Lemma same_session_refl s : same_session s s.
Proof. by repeat split. Qed.

Lemma same_session_trans s1 s2 s3 :
  same_session s1 s2 → same_session s2 s3 → same_session s1 s3.
Proof.
  unfold same_session. intros (?&?&?&?&?&?&?&?&?) (?&?&?&?&?&?&?&?&?).
  repeat split; congruence.
Qed.

Lemma run_bind {A B} (m : M A) (f : A → M B) (s : State) :
  (m ≫= f) s
  = match m s with
    | (Normal a, s1, log1) =>
        match f a s1 with
        | (r, s2, log2) => (r, s2, log1 ++ log2)
        end
    | (Throw e, s1, log1) => (Throw e, s1, log1)
    end.
Proof. reflexivity. Qed.

Lemma fire_spec (a : TimerAction) (s : State) :
  let r := fire a s in
  result_of r = Normal tt
  ∧ same_session s (state_of r)
  ∧ timers (state_of r) = timers s
  ∧ now (state_of r) = now s
  ∧ Forall quiet (log_of r)
  ∧ (∀ name, name ∈ joinedUsersRef (state_of r)
             ↔ name ∈ joinedUsersRef s ∧ a ≠ ExpireJoinedUser name).
Proof.
  destruct s as [? ? ? sr cur ? ? ? ? ? ? ? ? ?].
  destruct a as [n | c room | room | friend | to trimmed];
    unfold_handlers; unfold same_session; cbn.
  - repeat split; auto; set_solver.
  - destruct sr, c, (bool_decide (cur = Some room)); cbn;
      repeat split; auto; try (repeat constructor); naive_solver.
  - repeat split; auto; naive_solver.
  - destruct sr; cbn; repeat split; auto; try (repeat constructor);
      naive_solver.
  - destruct sr; cbn; repeat split; auto; try (repeat constructor);
      naive_solver.
Qed.

Lemma fire_all_spec (due : list Timer) (s : State) :
  let r := fire_all due s in
  result_of r = Normal tt
  ∧ same_session s (state_of r)
  ∧ timers (state_of r) = timers s
  ∧ Forall quiet (log_of r)
  ∧ (∀ name, name ∈ joinedUsersRef (state_of r)
             ↔ name ∈ joinedUsersRef s
               ∧ Forall (λ tm, timer_action tm ≠ ExpireJoinedUser name) due)
  ∧ now s ≤ now (state_of r)
  ∧ (∀ t, now s ≤ t → Forall (λ tm, timer_due tm ≤ t) due →
          now (state_of r) ≤ t).
Proof.
  revert s. induction due as [|tm rest IH]; intros s.
  - cbn. repeat split; auto using same_session_refl; try lia.
    by intros [].
  - cbn [fire_all]. rewrite run_bind.
    change (modify _ s) with
      (Normal tt, set_now (Z.max (now s) (timer_due tm)) s, @nil Effect).
    cbv iota beta. rewrite run_bind.
    set (s1 := set_now _ s).
    assert (Hs1 : same_session s s1) by (destruct s; by repeat split).
    assert (Hn1 : now s1 = Z.max (now s) (timer_due tm)) by by destruct s.
    assert (Hj1 : joinedUsersRef s1 = joinedUsersRef s) by by destruct s.
    assert (Ht1 : timers s1 = timers s) by by destruct s.
    clearbody s1.
    pose proof (fire_spec (timer_action tm) s1) as Hf.
    destruct (fire (timer_action tm) s1) as [[r1 s2] l1].
    cbn in Hf. destruct Hf as (-> & Hss & Htm & Hnow & Hq & Hj).
    specialize (IH s2).
    destruct (fire_all rest s2) as [[r2 s3] l2].
    cbn in IH. destruct IH as (-> & Hss' & Htm' & Hq' & Hj' & Hle & Hub).
    cbn. split_and!.
    + done.
    + eauto using same_session_trans.
    + congruence.
    + apply Forall_app; auto.
    + intros name. rewrite Hj', Hj, Hj1, Forall_cons. tauto.
    + lia.
    + intros t Ht Hall. apply Forall_cons in Hall as [? ?].
      apply Hub; [lia | done].
Qed.

Lemma advance_spec (t : Z) (s : State) :
  let r := advance t s in
  result_of r = Normal tt
  ∧ same_session s (state_of r)
  ∧ timers (state_of r) = filter (λ tm, ¬ timer_due tm ≤ t) (timers s)
  ∧ Forall quiet (log_of r)
  ∧ (∀ name, name ∈ joinedUsersRef (state_of r)
             ↔ name ∈ joinedUsersRef s
               ∧ ∀ tm, tm ∈ timers s → timer_due tm ≤ t →
                       timer_action tm ≠ ExpireJoinedUser name)
  ∧ now (state_of r) = Z.max (now s) t.
Proof.
  unfold advance. rewrite run_bind. cbn [get]. cbv iota beta.
  rewrite run_bind.
  set (rest := filter _ (timers s)).
  change (modify (set_timers rest) s)
    with (Normal tt, set_timers rest s, @nil Effect).
  cbv iota beta. rewrite run_bind.
  set (due := filter _ (timers s)).
  set (s1 := set_timers rest s).
  assert (Hs1 : same_session s s1) by (destruct s; by repeat split).
  assert (Hn1 : now s1 = now s) by by destruct s.
  assert (Hj1 : joinedUsersRef s1 = joinedUsersRef s) by by destruct s.
  assert (Ht1 : timers s1 = rest) by by destruct s.
  clearbody s1.
  pose proof (fire_all_spec due s1) as Hf.
  destruct (fire_all due s1) as [[r1 s2] l1].
  cbn in Hf. destruct Hf as (-> & Hss & Htm & Hq & Hj & Hle & Hub).
  assert (Hs2 : same_session s2 (set_now (Z.max (now s2) t) s2))
    by (destruct s2; by repeat split).
  cbn. split_and!.
  - done.
  - eauto using same_session_trans.
  - destruct s2; cbn in *. congruence.
  - by rewrite app_nil_r.
  - intros name.
    rewrite Hj, Hj1, Forall_forall. subst due.
    setoid_rewrite list_elem_of_filter. naive_solver.
  - assert (now s2 ≤ Z.max (now s) t).
    { apply Hub; [lia|]. apply Forall_forall.
      intros tm [? ?]%list_elem_of_filter. lia. }
    destruct s2; cbn in *. lia.
Qed.

Lemma count_app (p : Effect → bool) (l1 l2 : list Effect) :
  count p (l1 ++ l2) = (count p l1 + count p l2)%nat.
Proof. unfold count. by rewrite List.filter_app, length_app. Qed.

Lemma quiet_counts (log : list Effect) :
  Forall quiet log →
  count is_membership_announcement log = 0%nat
  ∧ count is_toast log = 0%nat
  ∧ count is_leave log = 0%nat.
Proof.
  unfold count. induction 1 as [|e log (He1 & He2 & He3) _ (IH1 & IH2 & IH3)];
    cbn; [done|]. by rewrite He1, He2, He3.
Qed.

(** One turn of the loop, in terms of its two halves. *)
Lemma step_unfold (t : Z) (i : Input) (s : State) :
  step t i s
  = match handle i (state_of (advance t s)) with
    | (r, s2, log2) => (r, s2, log_of (advance t s) ++ log2)
    end.
Proof.
  unfold step. rewrite run_bind.
  pose proof (advance_spec t s) as (Hr & _).
  destruct (advance t s) as [[r1 s1] l1]. cbn in *. by subst.
Qed.

(** ** C5: repeated joins of the same room *)

Lemma joinRoom_noop (s : State) (room : string) :
  join_is_noop s room = true →
  state_of (joinRoom (Some room) s) = s
  ∧ count is_emit (log_of (joinRoom (Some room) s)) = 0%nat
  ∧ count is_membership_announcement (log_of (joinRoom (Some room) s)) = 0%nat.
Proof.
  unfold join_is_noop.
  destruct s as [[me|] [] ? [] cur ? ? [] prog last ? ? ? ?]; cbn;
    unfold_handlers; intros Hnoop;
    destruct (String.eqb room ""); cbn; auto;
    destruct prog, (bool_decide (last = Some room)),
      (bool_decide (cur = Some room)); cbn in *; auto; discriminate.
Qed.

Lemma joined_inv_noop (s : State) (room : string) :
  joined_inv room s → join_is_noop s room = true.
Proof.
  intros [Hc Hl]. unfold join_is_noop. rewrite Hc, Hl.
  rewrite !bool_decide_eq_true_2 by done. by destruct (roomJoinInProgressRef s).
Qed.

Lemma step_repeats (room : string) (t : Z) (i : Input) (s : State) :
  joined_inv room s → repeats room i →
  joined_inv room (state_of (step t i s))
  ∧ count is_membership_announcement (log_of (step t i s)) = 0%nat.
Proof.
  intros [Hc Hl] Hi. rewrite step_unfold.
  pose proof (advance_spec t s) as (_ & Hss & _ & Hq & _).
  destruct (advance t s) as [[r1 s1] l1]. cbn in Hss, Hq. cbn [state_of log_of fst snd].
  apply quiet_counts in Hq as (Hq & _).
  assert (Hinv1 : joined_inv room s1).
  { destruct Hss as (_&_&_&_&?&?&_). split; congruence. }
  destruct Hi as [-> | ->]; cbn [handle].
  - pose proof (joinRoom_noop s1 room (joined_inv_noop _ _ Hinv1))
      as (Hs & _ & Hn).
    destruct (joinRoom (Some room) s1) as [[r2 s2] l2]. cbn in *. subst s2.
    split; [done|]. rewrite count_app. lia.
  - destruct Hinv1. destruct s1; cbn in *. split; [by split|].
    rewrite count_app, Hq. done.
Qed.

Lemma run_cons_log (t : Z) (i : Input) (rest : list (Z * Input)) (s : State) :
  (run ((t, i) :: rest) s).2
  = log_of (step t i s) ++ (run rest (state_of (step t i s))).2.
Proof. reflexivity. Qed.

Lemma run_cons_state (t : Z) (i : Input) (rest : list (Z * Input)) (s : State) :
  (run ((t, i) :: rest) s).1 = (run rest (state_of (step t i s))).1.
Proof. reflexivity. Qed.

Lemma run_repeats (room : string) (trace : list (Z * Input)) (s : State) :
  joined_inv room s → Forall (λ ti, repeats room ti.2) trace →
  count is_membership_announcement (run trace s).2 = 0%nat.
Proof.
  revert s. induction trace as [|[t i] trace IH]; intros s Hinv Hall; [done|].
  apply Forall_cons in Hall as [Hi Hall]. rewrite run_cons_log.
  destruct (step_repeats room t i s Hinv Hi) as [Hinv' Hn].
  rewrite count_app, Hn. by apply IH.
Qed.

(** C5.  A [joinRoom(A)] that finds the join to A pending, or A current
    with no join pending, changes nothing and emits nothing.  Hence, on a
    live connection, a first [joinRoom(A)] followed by any number of
    further [joinRoom(A)] calls, at any later times and with the join
    time-out or the server's confirmation falling anywhere in between,
    emits exactly one membership-announcement in total. *)
Theorem C5_joinRoom_idempotent (s : State) (A : string)
    (trace : list (Z * Input)) :
  live s → A ≠ "" → join_is_noop s A = false →
  Forall (λ ti, repeats A ti.2) trace →
  let r := joinRoom (Some A) s in
  count is_membership_announcement (log_of r ++ (run trace (state_of r)).2)
  = 1%nat
  ∧ (∀ s', join_is_noop s' A = true →
           state_of (joinRoom (Some A) s') = s'
           ∧ count is_emit (log_of (joinRoom (Some A) s')) = 0%nat).
Proof.
  intros Hlive HA Hnoop Hall r. split.
  - destruct (Hlive) as (_ & [me Hme] & _).
    destruct (joinRoom_live s A me Hlive Hme HA) as (_ & _ & _ & H).
    fold r in H. rewrite Hnoop in H. destruct H as (Hlog & Hc & Hl & _).
    rewrite count_app, Hlog, (run_repeats A) by done. done.
  - intros s' Hs'. by destruct (joinRoom_noop s' A Hs') as (? & ? & _).
Qed.

(** C5 at work: Carol joins A and asks three more times, the server's
    confirmation and the join time-out falling in between. *)
Lemma C5_joinRoom_idempotent_witness :
  count is_membership_announcement
    (log_of (joinRoom (Some "A") carol_connected)
     ++ (run [(100, CallJoinRoom (Some "A")); (2000, ConnectionConfirmed);
              (2500, CallJoinRoom (Some "A")); (9000, CallJoinRoom (Some "A"))]
           (state_of (joinRoom (Some "A") carol_connected))).2)
  = 1%nat.
Proof.
  apply (C5_joinRoom_idempotent carol_connected "A").
  - apply carol_connected_live.
  - discriminate.
  - reflexivity.
  - repeat (apply List.Forall_cons; [first [by left | by right]|]).
    apply List.Forall_nil.
Defined.

(** ** C6: the five-second window of "user joined" notifications *)

Lemma elem_of_insert_timer (x tm : Timer) (l : list Timer) :
  tm ∈ insert_timer x l ↔ tm = x ∨ tm ∈ l.
Proof.
  induction l as [|y l IH]; cbn.
  - rewrite list_elem_of_singleton. set_solver.
  - case_bool_decide; rewrite !elem_of_cons, ?IH; [tauto | done].
Qed.

(** Arming a timer keeps the queue ordered by due time, so that running
    the due timers in queue order runs them in the order they fall due. *)
Lemma insert_timer_sorted (x : Timer) (l : list Timer) :
  StronglySorted due_order l → StronglySorted due_order (insert_timer x l).
Proof.
  induction 1 as [|y l Hl IH Hy]; cbn.
  - repeat constructor.
  - case_bool_decide as Hle.
    + constructor; [done|]. apply Forall_forall. intros tm Htm.
      apply elem_of_insert_timer in Htm as [-> | Htm]; [done|].
      rewrite Forall_forall in Hy. by apply Hy.
    + constructor; [by constructor|]. constructor; [unfold due_order; lia|].
      eapply Forall_impl; [exact Hy|]. unfold due_order. intros; cbn in *; lia.
Qed.

Lemma advance_fresh (name : string) (t : Z) (s : State) :
  fresh name s → fresh name (state_of (advance t s)).
Proof.
  intros [Hn Ht].
  pose proof (advance_spec t s) as (_ & _ & Htm & _ & Hj & _).
  split.
  - rewrite Hj. tauto.
  - intros tm. rewrite Htm. intros [_ ?]%list_elem_of_filter. by apply Ht.
Qed.

Lemma advance_tracked_before (name : string) (w t : Z) (s : State) :
  tracked name w s → t < w + 5000 → tracked name w (state_of (advance t s)).
Proof.
  intros (Hin & (tm0 & Htm0 & Ha0) & Hdue) Hlt.
  pose proof (advance_spec t s) as (_ & _ & Htm & _ & Hj & _).
  split_and!.
  - apply Hj. split; [done|]. intros tm Hm Hd Ha.
    specialize (Hdue tm Hm Ha). lia.
  - exists tm0. split; [|done]. rewrite Htm. apply list_elem_of_filter.
    split; [|done]. specialize (Hdue tm0 Htm0 Ha0). lia.
  - intros tm. rewrite Htm. intros [_ ?]%list_elem_of_filter. by apply Hdue.
Qed.

Lemma advance_tracked_after (name : string) (w t : Z) (s : State) :
  tracked name w s → w + 5000 ≤ t → fresh name (state_of (advance t s)).
Proof.
  intros (Hin & (tm0 & Htm0 & Ha0) & Hdue) Hle.
  pose proof (advance_spec t s) as (_ & _ & Htm & _ & Hj & _).
  split.
  - rewrite Hj. intros [_ Hall]. apply (Hall  tm0 Htm0); [|done].
    specialize (Hdue tm0 Htm0 Ha0). lia.
  - intros tm. rewrite Htm. intros [Hd Hm]%list_elem_of_filter Ha.
    specialize (Hdue tm Hm Ha). lia.
Qed.

Lemma user_joined_fresh (name me : string) (s : State) :
  user s = Some me → name ≠ "" → name ≠ me → fresh name s →
  let r := on_user_joined (Some (mkUserEvent (Some name))) s in
  result_of r = Normal tt
  ∧ log_of r = [joined_toast name]
  ∧ tracked name (now s) (state_of r)
  ∧ user (state_of r) = Some me
  ∧ now (state_of r) = now s.
Proof.
  intros Hu Hne Hme [Hn Ht].
  apply String.eqb_neq in Hne, Hme.
  destruct s as [u ? ? ? ? ? joined ? ? ? ? ? ? tms]; cbn in *; subst.
  unfold_handlers. rewrite Hne. cbn. rewrite Hme. cbn.
  rewrite (bool_decide_eq_false_2 _ Hn). cbn.
  split_and!; try done. unfold tracked; cbn. split_and!.
  - set_solver.
  - eexists. split; [apply elem_of_insert_timer; by left | done].
  - intros tm [-> | Hin]%elem_of_insert_timer Ha; [done|].
    by apply Ht in Hin.
Qed.

Lemma user_joined_tracked (name : string) (s : State) :
  is_Some (user s) → name ∈ joinedUsersRef s →
  on_user_joined (Some (mkUserEvent (Some name))) s = (Normal tt, s, []).
Proof.
  intros [me Hu] Hin.
  destruct s as [u ? ? ? ? ? joined ? ? ? ? ? ? tms]; cbn in *; subst.
  unfold_handlers.
  destruct (String.eqb name ""); cbn; [done|].
  destruct (String.eqb name me); cbn; [done|].
  by rewrite (bool_decide_eq_true_2 _ Hin).
Qed.

Lemma quiet_no_toast (log : list Effect) :
  Forall quiet log → List.filter is_toast log = [].
Proof.
  induction 1 as [|e log (_ & He & _) _ IH]; cbn; [done|]. by rewrite He.
Qed.

Lemma step_joined (name me : string) (t : Z) (s : State) (window : option Z) :
  user s = Some me → name ≠ "" → name ≠ me →
  window_state name window s → now s ≤ t →
  let r := step t (joined_event name) s in
  List.filter is_toast (log_of r)
  = (if shown window t then [joined_toast name] else [])
  ∧ window_state name (if shown window t then Some t else window) (state_of r)
  ∧ user (state_of r) = Some me
  ∧ now (state_of r) = t.
Proof.
  intros Hu Hne Hme Hw Hnow. rewrite step_unfold.
  pose proof (advance_spec t s) as (_ & Hss & _ & Hq & _ & Hn).
  pose proof (advance_fresh name t s) as Hfresh.
  pose proof (λ w, advance_tracked_before name w t s) as Hbefore.
  pose proof (λ w, advance_tracked_after name w t s) as Hafter.
  destruct (advance t s) as [[r1 s1] l1].
  cbn [state_of log_of fst snd] in *.
  assert (Hu1 : user s1 = Some me).
  { destruct Hss as (Hu1 & _). congruence. }
  assert (Hn1 : now s1 = t) by lia.
  apply quiet_no_toast in Hq.
  assert (Hshown : fresh name s1 →
    let r := on_user_joined (Some (mkUserEvent (Some name))) s1 in
    List.filter is_toast (l1 ++ log_of r) = [joined_toast name]
    ∧ tracked name t (state_of r)
    ∧ user (state_of r) = Some me ∧ now (state_of r) = t).
  { intros Hf.
    destruct (user_joined_fresh name me s1 Hu1 Hne Hme Hf)
      as (_ & Hlog & Htr & Hu2 & Hn2).
    cbn zeta. rewrite List.filter_app, Hq, Hlog, Hn2, <- Hn1. done. }
  unfold joined_event, handle.
  destruct window as [w|]; cbn [shown window_state] in *.
  - case_bool_decide as Hle.
    + specialize (Hshown (Hafter w Hw Hle)). cbn zeta in Hshown.
      destruct (on_user_joined _ s1) as [[r2 s2] l2]. exact Hshown.
    + assert (Htr : tracked name w s1) by (apply Hbefore; [done | lia]).
      rewrite (user_joined_tracked name s1); [|by rewrite Hu1 | apply Htr].
      cbn. by rewrite app_nil_r.
  - specialize (Hshown (Hfresh Hw)). cbn zeta in Hshown.
    destruct (on_user_joined _ s1) as [[r2 s2] l2]. exact Hshown.
Qed.

Lemma run_joined_window (name me : string) (times : list Z) (s : State)
    (window : option Z) :
  user s = Some me → name ≠ "" → name ≠ me →
  window_state name window s → nondecreasing_from (now s) times →
  List.filter is_toast (run (map (λ t, (t, joined_event name)) times) s).2
  = map (λ _, joined_toast name) (List.filter id (notified window times)).
Proof.
  intros Hu Hne Hme. revert s window Hu.
  induction times as [|t times IH]; intros s window Hu Hw Hnd; [done|].
  destruct Hnd as [Hle Hnd]. cbn [map]. rewrite run_cons_log.
  destruct (step_joined name me t s window Hu Hne Hme Hw Hle)
    as (Hlog & Hw' & Hu' & Hn').
  rewrite List.filter_app, Hlog. cbn [notified].
  rewrite (IH _ (if shown window t then Some t else window)); try done.
  - by destruct (shown window t).
  - by rewrite Hn'.
Qed.

(** C6, refuted as stated: a [user_joined] that names the signed-in user
    shows nothing. *)
Lemma C6_own_join_shows_nothing :
  (run [(100, joined_event "carol")] carol_connected).2 = [].
Proof. reflexivity. Qed.

(** C6 (as amended).  Let [name] be a non-empty username other than the
    signed-in user's, not tracked and with no expiry armed when the first
    event arrives at [t0].  That event shows one notification; the same
    event at [t1], less than 5000 ms after [t0], shows none; the same
    event at [t2], 5000 ms or more after [t0], shows a second one, also
    when an event was suppressed at [t1] less than 5000 ms before [t2]
    (the window does not slide); and [t2] starts the next window, so the
    same event at [t3], less than 5000 ms after [t2], shows none.  In
    general the notifications of a run of such events are those of
    [notified]. *)
Theorem C6_joined_window (s : State) (name me : string) (t0 t1 t2 t3 : Z) :
  user s = Some me → name ≠ "" → name ≠ me → fresh name s →
  now s ≤ t0 → t0 ≤ t1 → t1 < t0 + 5000 → t0 + 5000 ≤ t2 → t1 ≤ t2 →
  t2 ≤ t3 → t3 < t2 + 5000 →
  let toasts times :=
    List.filter is_toast
      (run (map (λ t, (t, joined_event name)) times) s).2 in
  toasts [t0] = [joined_toast name]
  ∧ toasts [t0; t1] = [joined_toast name]
  ∧ toasts [t0; t2] = [joined_toast name; joined_toast name]
  ∧ toasts [t0; t1; t2] = [joined_toast name; joined_toast name]
  ∧ toasts [t0; t1; t2; t3] = [joined_toast name; joined_toast name]
  ∧ (∀ times, nondecreasing_from (now s) times →
       toasts times
       = map (λ _, joined_toast name) (List.filter id (notified None times))).
Proof.
  intros Hu Hne Hme Hfresh H0 H01 H1 H2 H12 H23 H3 toasts.
  assert (Hgen : ∀ times, nondecreasing_from (now s) times →
            toasts times
            = map (λ _, joined_toast name) (List.filter id (notified None times))).
  { intros times Hnd. by apply (run_joined_window name me). }
  assert (Hb1 : bool_decide (t0 + 5000 ≤ t1) = false)
    by (apply bool_decide_eq_false_2; lia).
  assert (Hb2 : bool_decide (t0 + 5000 ≤ t2) = true)
    by (apply bool_decide_eq_true_2; lia).
  assert (Hb3 : bool_decide (t2 + 5000 ≤ t3) = false)
    by (apply bool_decide_eq_false_2; lia).
  split_and!; try exact Hgen;
    (rewrite Hgen by (cbn; lia));
    cbn [notified shown]; rewrite ?Hb1, ?Hb2, ?Hb3; reflexivity.
Qed.

(** C6 at work: alice is announced at 1000, 3000 and 6500 ms. *)
Lemma C6_joined_window_witness :
  List.filter is_toast
    (run (map (λ t, (t, joined_event "alice")) [1000; 3000; 6500]) carol_connected).2
  = [joined_toast "alice"; joined_toast "alice"].
Proof.
  apply (C6_joined_window carol_connected "alice" "carol" 1000 3000 6500 9000);
    try reflexivity; try discriminate; try (vm_compute; discriminate).
  - split.
    + change (joinedUsersRef carol_connected) with (∅ : gset string).
      apply not_elem_of_empty.
    + intros tm Htm. change (timers carol_connected) with (@nil Timer) in Htm.
      by apply elem_of_nil in Htm.
  - cbn [nondecreasing_from]. repeat split; vm_compute; discriminate.
Defined.

(** An expiry armed by an earlier notification is not disarmed when the
    user leaves (or the tracker is cleared), so it can cut a later window
    short: the third notification here comes 3500 ms after the second.
    This is why [fresh] asks for no expiry to be armed. *)
Example stale_expiry_cuts_window :
  List.filter is_toast
    (run [(1000, joined_event "alice");
          (2000, UserLeft (Some (mkUserEvent (Some "alice"))));
          (3000, joined_event "alice");
          (6500, joined_event "alice")] carol_connected).2
  = [joined_toast "alice"; Toast ToastPlain "alice left the room";
     joined_toast "alice"; joined_toast "alice"].
Proof. reflexivity. Qed.

(** ** C7: incoming messages are deduplicated by id *)

Lemma NoDup_map_snoc {A B} (f : A → B) (l : list A) (x : A) :
  NoDup (map f l) → f x ∉ map f l → NoDup (map f (l ++ [x])).
Proof.
  intros Hnd Hx. rewrite map_app. cbn. apply NoDup_app. split_and!.
  - done.
  - by intros y Hy ->%list_elem_of_singleton.
  - apply NoDup_singleton.
Qed.

Lemma Chat_isDuplicate_iff (prev : list Chat.Message) (m : Chat.Message) :
  Chat.isDuplicate prev m = true ↔ Chat.id m ∈ map Chat.id prev.
Proof.
  unfold Chat.isDuplicate, strict_eq. rewrite existsb_exists, list_elem_of_fmap.
  split.
  - intros (x & Hin & Heq). apply bool_decide_eq_true in Heq.
    exists x. split; [done | by apply list_elem_of_In].
  - intros (x & Heq & Hin). exists x. split; [by apply list_elem_of_In|].
    by apply bool_decide_eq_true.
Qed.

Lemma PrivateChat_isDuplicate_iff (prev : list PrivateChat.Message)
    (m : PrivateChat.Incoming) :
  PrivateChat.isDuplicate prev m = true
  ↔ PrivateChat.in_id m ∈ map PrivateChat.id prev.
Proof.
  unfold PrivateChat.isDuplicate, strict_eq.
  rewrite existsb_exists, list_elem_of_fmap. split.
  - intros (x & Hin & Heq). apply bool_decide_eq_true in Heq.
    exists x. split; [done | by apply list_elem_of_In].
  - intros (x & Heq & Hin). exists x. split; [by apply list_elem_of_In|].
    by apply bool_decide_eq_true.
Qed.

(** C7, refuted as stated: a message with a new id that belongs to
    another room is not appended. *)
Lemma C7_other_room_not_appended :
  let m := Chat.mkMessage (PNum 7) (Some "Chat Room 2") (Some "dave") "hi"
             "2024-01-01T00:00:00Z" false false in
  (Chat.id m ∉ map Chat.id [])
  ∧ Chat.handleNewMessage "Chat Room 1" true (Some m) [] = [].
Proof. split; [apply not_elem_of_nil | reflexivity]. Qed.

(** C7 (as amended).  A [receive_message] or [receive_private_message]
    whose id already occurs in the local sequence leaves the sequence
    unchanged.  One whose id does not occur is appended exactly once, at
    the end, provided it passes the view's filter: for a room message, the
    view is mounted and the message names the room on display; for a
    private message, it goes between the signed-in user and the friend on
    display.  A message that does not pass the filter is ignored.  So
    handling these events never puts two messages with the same id into a
    sequence that had none, and delivering the same event a second time
    changes nothing. *)
Theorem C7_messages_deduplicated_by_id :
  (∀ room mounted (m : Chat.Message) prev,
     let next := Chat.handleNewMessage room mounted (Some m) prev in
     (Chat.id m ∈ map Chat.id prev → next = prev)
     ∧ (Chat.id m ∉ map Chat.id prev → Chat.room_name m = Some room →
        room ≠ "" → mounted = true → next = prev ++ [m])
     ∧ (Chat.room_name m ≠ Some room ∨ room = "" ∨ mounted = false →
        next = prev)
     ∧ (NoDup (map Chat.id prev) → NoDup (map Chat.id next))
     ∧ Chat.handleNewMessage room mounted (Some m) next = next)
  ∧ (∀ user friend (m : PrivateChat.Incoming) prev,
       let next := PrivateChat.handlePrivateMessage user friend m prev in
       (PrivateChat.in_id m ∈ map PrivateChat.id prev → next = Normal prev)
       ∧ (PrivateChat.in_id m ∉ map PrivateChat.id prev →
          PrivateChat.for_this_chat user friend m = true → is_Some user →
          ∃ formatted,
            next = Normal (prev ++ [formatted])
            ∧ PrivateChat.id formatted = PrivateChat.in_id m
            ∧ PrivateChat.content formatted = PrivateChat.in_content m)
       ∧ (PrivateChat.for_this_chat user friend m = false →
          next = Normal prev)
       ∧ (∀ l, next = Normal l →
               (NoDup (map PrivateChat.id prev) → NoDup (map PrivateChat.id l))
               ∧ PrivateChat.handlePrivateMessage user friend m l = Normal l)).
Proof.
  split.
  - intros room mounted m prev next. subst next. unfold Chat.handleNewMessage.
    pose proof (Chat_isDuplicate_iff prev m) as Hdup.
    destruct (Chat.isDuplicate prev m) eqn:Hd.
    + assert (Hin : Chat.id m ∈ map Chat.id prev) by by apply Hdup.
      split_and!; intros; try done; by repeat case_match.
    + assert (Hnin : Chat.id m ∉ map Chat.id prev).
      { intros Hin. apply Hdup in Hin. discriminate. }
      split_and!.
      * done.
      * intros _ Hroom Hne ->. rewrite Hroom. cbn.
        apply String.eqb_neq in Hne. rewrite Hne. cbn.
        by rewrite bool_decide_eq_true_2.
      * intros [Hroom | [-> | ->]].
        -- rewrite (bool_decide_eq_false_2 _ Hroom). cbn.
           by rewrite orb_true_r.
        -- destruct (Chat.room_name m) as [r|]; cbn; [|done].
           destruct (String.eqb r "") eqn:Hr; cbn; [done|].
           apply String.eqb_neq in Hr.
           rewrite bool_decide_eq_false_2 by congruence. done.
        -- by repeat case_match.
      * intros Hnd. repeat case_match; try done.
        all: by apply NoDup_map_snoc.
      * destruct (negb (truthy_str (Chat.room_name m))
                  || negb (bool_decide (Chat.room_name m = Some room)));
          [done|].
        destruct mounted; [|done]. cbn [negb].
        assert (Chat.isDuplicate (prev ++ [m]) m = true) as ->; [|done].
        apply Chat_isDuplicate_iff. rewrite map_app. set_solver.
  - intros user friend m prev next. subst next.
    unfold PrivateChat.handlePrivateMessage.
    pose proof (PrivateChat_isDuplicate_iff prev m) as Hdup.
    destruct (PrivateChat.isDuplicate prev m) eqn:Hd.
    + assert (Hin : PrivateChat.in_id m ∈ map PrivateChat.id prev)
        by by apply Hdup.
      split_and!; intros; try done; try (repeat case_match; congruence).
      destruct (PrivateChat.for_this_chat user friend m); simplify_eq;
        by rewrite ?Hd.
    + assert (Hnin : PrivateChat.in_id m ∉ map PrivateChat.id prev).
      { intros Hin. apply Hdup in Hin. discriminate. }
      split_and!.
      * done.
      * intros _ -> [u ->]. unfold PrivateChat.sender_id_of.
        case_bool_decide; eexists; (split; [reflexivity|]); done.
      * by intros ->.
      * intros l Hl.
        destruct (PrivateChat.for_this_chat user friend m); [|by simplify_eq].
        destruct (PrivateChat.sender_id_of user friend m) as [sid|];
          simplify_eq.
        split; [intros Hnd; by apply NoDup_map_snoc|].
        match goal with
        | |- context [PrivateChat.isDuplicate ?l m] =>
            assert (PrivateChat.isDuplicate l m = true) as ->; [|done]
        end.
        apply PrivateChat_isDuplicate_iff. rewrite map_app. set_solver.
Qed.

(** C7 at work: a message with a new id for the room on display. *)
Lemma C7_messages_witness :
  let m3 := Chat.mkMessage (PNum 3) (Some "Chat Room 1") (Some "carol") "hello"
              "2024-01-01T00:00:00Z" false false in
  let m7 := Chat.mkMessage (PNum 7) (Some "Chat Room 1") (Some "dave") "hi"
              "2024-01-01T00:00:05Z" false false in
  Chat.handleNewMessage "Chat Room 1" true (Some m7) [m3] = [m3; m7].
Proof.
  intros m3 m7.
  pose proof (proj1 C7_messages_deduplicated_by_id "Chat Room 1" true m7 [m3])
    as (_ & Hnew & _).
  apply Hnew.
  - cbn. rewrite list_elem_of_singleton. discriminate.
  - reflexivity.
  - discriminate.
  - reflexivity.
Defined.

(** ** C8: roster snapshots of either shape *)

(** C8.  The [online_users] handler never throws.  A bare array and an
    object holding the same array under [users] leave the provider in the
    same state, with that array as the roster, whatever the roster was
    before.  Any other payload, [null] included, makes the roster empty
    and logs one warning. *)
Theorem C8_online_users_shape_tolerant (s : State) (data : JsVal) :
  let r := on_online_users data s in
  result_of r = Normal tt
  ∧ (∀ users, roster_of data = Some users →
       state_of r = set_onlineUsers users s ∧ log_of r = [])
  ∧ (∀ users fields, assoc "users" fields = JArr users →
       state_of (on_online_users (JArr users) s)
       = state_of (on_online_users (JObj fields) s))
  ∧ (roster_of data = None →
       state_of r = set_onlineUsers [] s ∧ log_of r = [roster_anomaly])
  ∧ log_of (on_online_users JNull s) = [roster_anomaly]
  ∧ onlineUsers (state_of (on_online_users JNull s)) = [].
Proof.
  split_and!.
  - destruct data as [| |b|z|str|elts|fields]; unfold_handlers;
      try destruct b; try destruct (Z.eqb z 0);
      try destruct (String.eqb str ""); cbn; try done.
    by destruct (assoc "users" fields).
  - intros users Hr.
    destruct data as [| |b|z|str|elts|fields]; cbn in Hr; simplify_eq.
    + done.
    + unfold_handlers. destruct (assoc "users" fields); by simplify_eq.
  - intros users fields Hf. unfold_handlers. by rewrite Hf.
  - intros Hr.
    destruct data as [| |b|z|str|elts|fields]; cbn in Hr; simplify_eq;
      unfold_handlers;
      try destruct b; try destruct (Z.eqb z 0);
      try destruct (String.eqb str ""); cbn; try done.
    by destruct (assoc "users" fields).
  - reflexivity.
  - reflexivity.
Qed.

(** C8 at work: the two payloads of the specification's example. *)
Lemma C8_online_users_witness :
  let wrapped := JObj [("users", JArr [JObj [("username", JStr "bob")]])] in
  let bare := JArr [JObj [("username", JStr "bob")]] in
  onlineUsers (state_of (on_online_users wrapped carol_in_room))
  = [JObj [("username", JStr "bob")]]
  ∧ state_of (on_online_users bare carol_in_room)
    = state_of (on_online_users wrapped carol_in_room).
Proof.
  intros wrapped bare.
  pose proof (C8_online_users_shape_tolerant carol_in_room wrapped)
    as (_ & Hsome & Hsame & _).
  split.
  - destruct (Hsome [JObj [("username", JStr "bob")]] eq_refl) as [-> _].
    reflexivity.
  - apply Hsame. reflexivity.
Defined.

(** ** C9: [sendMessage] answers, or does it *)

(** C9, evaluated where it fails.  With the socket and the user there,
    missing content makes [content.trim()] throw before anything is
    returned or shown, although the rejection branch itself reads
    [content?.trim()]; and a missing room name is rejected with [false]
    and a console warning but no toast. *)
Theorem C9_sendMessage_missing_content_throws :
  result_of send_without_content
  = Throw (TypeError "Cannot read properties of undefined (reading 'trim')")
  ∧ log_of send_without_content = []
  ∧ result_of send_without_room = Normal false
  ∧ count is_toast (log_of send_without_room) = 0%nat.
Proof. vm_compute. repeat split. Qed.

(** What does hold: with string content, [sendMessage] returns, and it
    returns [true] exactly when it emitted the one [send_message]. *)
Lemma sendMessage_with_content (s : State) (roomName : option string)
    (content : string) :
  let r := sendMessage roomName (Some content) s in
  (∃ b, result_of r = Normal b)
  ∧ (∀ me room, live s → user s = Some me → roomName = Some room →
       room ≠ "" → trim content ≠ "" →
       result_of r = Normal true
       ∧ log_of r = [Emit (send_message me (trim content) room)]
       ∧ state_of r = s)
  ∧ (result_of r = Normal true → count is_emit (log_of r) = 1%nat)
  ∧ (result_of r = Normal false → count is_emit (log_of r) = 0%nat).
Proof.
  split_and!.
  - destruct roomName; destruct_guards s; unfold_handlers; case_tests; eauto.
  - intros me room (Hs & _ & Hc & Hi) Hu -> Hr Ht.
    apply String.eqb_neq in Hr, Ht.
    destruct s; cbn in *; subst. unfold_handlers. rewrite Hr, Ht. done.
  - destruct roomName; destruct_guards s; unfold_handlers; case_tests;
      intros ?; first [discriminate | reflexivity].
  - destruct roomName; destruct_guards s; unfold_handlers; case_tests;
      intros ?; first [discriminate | reflexivity].
Qed.

(** ** C10: events about oneself, or about nobody *)

(** C10.  A [user_joined] or [user_left] event whose payload is missing,
    has no username or an empty one, or names the signed-in user, shows
    nothing and leaves the whole state, the tracker included, as it was.
    Conversely a notification from these handlers always names a user
    other than the signed-in one. *)
Theorem C10_own_and_anonymous_events_ignored (s : State)
    (data : option UserEvent) :
  (data_username data = None ∨ data_username data = Some ""
   ∨ (is_Some (user s) ∧ data_username data = user s) →
   on_user_joined data s = (Normal tt, s, [])
   ∧ on_user_left data s = (Normal tt, s, []))
  ∧ (count is_toast (log_of (on_user_joined data s)) ≠ 0%nat
     ∨ count is_toast (log_of (on_user_left data s)) ≠ 0%nat →
     ∃ name me, data_username data = Some name ∧ name ≠ ""
                ∧ user s = Some me ∧ name ≠ me).
Proof.
  unfold on_user_joined, on_user_left. split.
  - intros [-> | [-> | [[me Hu] Hd]]]; [done | done |].
    rewrite Hd, Hu.
    destruct s as [u ? ? ? ? ? ? ? ? ? ? ? ? ?]; cbn in *; subst.
    unfold_handlers. destruct (String.eqb me ""); cbn; [done|].
    by rewrite String.eqb_refl.
  - destruct (data_username data) as [name|]; cbn;
      [|intros [H | H]; by destruct H].
    destruct s as [[me|] ? ? ? ? ? joined ? ? ? ? ? ? ?]; unfold_handlers;
      destruct (String.eqb name "") eqn:Hn; cbn;
      try (intros [H | H]; by destruct H).
    destruct (String.eqb name me) eqn:Hm; cbn;
      try (intros [H | H]; by destruct H).
    intros _. exists name, me. tests_to_props. done.
Qed.

(** C10 at work: an event about Carol herself, and one with no username. *)
Lemma C10_own_event_witness :
  on_user_joined (Some (mkUserEvent (Some "carol"))) carol_in_room
  = (Normal tt, carol_in_room, [])
  ∧ on_user_left (Some (mkUserEvent None)) carol_in_room
    = (Normal tt, carol_in_room, []).
Proof.
  split.
  - apply (C10_own_and_anonymous_events_ignored carol_in_room
             (Some (mkUserEvent (Some "carol")))).
    right; right. split; [by exists "carol" | reflexivity].
  - apply (C10_own_and_anonymous_events_ignored carol_in_room
             (Some (mkUserEvent None))).
    by left.
Defined.

(** * Further properties of the code *)

(** ** More on timers *)

(** What a timer callback logs depends on the socket and the current
    room only. *)
Lemma fire_log_eq (a : TimerAction) (s s' : State) :
  socketRef s = socketRef s' → currentRoomRef s = currentRoomRef s' →
  log_of (fire a s) = log_of (fire a s').
Proof.
  intros Hs Hc. destruct s, s'; cbn in *; subst.
  destruct a; unfold_handlers; try done;
    repeat match goal with
           | |- context [if ?b then _ else _] => destruct b
           end; done.
Qed.

Lemma fire_all_log (due : list Timer) (s : State) :
  log_of (fire_all due s)
  = flat_map (λ tm, log_of (fire (timer_action tm) s)) due.
Proof.
  revert s. induction due as [|tm rest IH]; intros s; [done|].
  cbn [fire_all flat_map]. rewrite run_bind.
  change (modify _ s) with
    (Normal tt, set_now (Z.max (now s) (timer_due tm)) s, @nil Effect).
  cbv iota beta. rewrite run_bind.
  set (s1 := set_now _ s).
  assert (Hs1 : socketRef s = socketRef s1 ∧ currentRoomRef s = currentRoomRef s1)
    by by destruct s.
  clearbody s1.
  pose proof (fire_spec (timer_action tm) s1) as (Hr & Hss & _).
  rewrite (fire_log_eq (timer_action tm) s s1) by tauto.
  specialize (IH (state_of (fire (timer_action tm) s1))).
  destruct (fire (timer_action tm) s1) as [[r1 s2] l1].
  cbn [result_of state_of log_of fst snd] in *. subst r1.
  destruct (fire_all rest s2) as [[r2 s3] l2].
  cbn [log_of snd] in *. rewrite IH. cbn. f_equal.
  apply flat_map_ext. intros tm' . apply fire_log_eq.
  all: destruct Hss as (_&_&?&_&?&_); destruct Hs1; congruence.
Qed.

Lemma advance_log (t : Z) (s : State) :
  log_of (advance t s)
  = flat_map (λ tm, log_of (fire (timer_action tm) s))
      (filter (λ tm, timer_due tm ≤ t) (timers s)).
Proof.
  unfold advance. rewrite run_bind. cbn [get]. cbv iota beta.
  rewrite run_bind.
  set (rest := filter _ (timers s)).
  change (modify (set_timers rest) s)
    with (Normal tt, set_timers rest s, @nil Effect).
  cbv iota beta. rewrite run_bind.
  set (due := filter _ (timers s)).
  pose proof (fire_all_spec due (set_timers rest s)) as (Hr & _).
  pose proof (fire_all_log due (set_timers rest s)) as Hl.
  destruct (fire_all due (set_timers rest s)) as [[r1 s2] l1].
  cbn [result_of state_of log_of fst snd] in *. subst r1. cbn.
  rewrite app_nil_r, Hl. apply flat_map_ext. intros tm.
  apply fire_log_eq; by destruct s.
Qed.

Lemma fire_progress (a : TimerAction) (s : State) :
  roomJoinInProgressRef (state_of (fire a s))
  = roomJoinInProgressRef s && negb (is_reset a).
Proof.
  destruct s. destruct a; unfold_handlers; rewrite ?andb_true_r, ?andb_false_r;
    try done;
    repeat match goal with
           | |- context [if ?b then _ else _] => destruct b
           end; done.
Qed.

Lemma fire_all_progress (due : list Timer) (s : State) :
  roomJoinInProgressRef (state_of (fire_all due s))
  = roomJoinInProgressRef s
    && forallb (λ tm, negb (is_reset (timer_action tm))) due.
Proof.
  revert s. induction due as [|tm rest IH]; intros s.
  - cbn. by rewrite andb_true_r.
  - cbn [fire_all forallb]. rewrite run_bind.
    change (modify _ s) with
      (Normal tt, set_now (Z.max (now s) (timer_due tm)) s, @nil Effect).
    cbv iota beta. rewrite run_bind.
    set (s1 := set_now _ s).
    assert (Hs1 : roomJoinInProgressRef s1 = roomJoinInProgressRef s)
      by by destruct s.
    clearbody s1.
    pose proof (fire_spec (timer_action tm) s1) as (Hr & _).
    pose proof (fire_progress (timer_action tm) s1) as Hp.
    specialize (IH (state_of (fire (timer_action tm) s1))).
    destruct (fire (timer_action tm) s1) as [[r1 s2] l1].
    cbn [result_of state_of log_of fst snd] in *. subst r1.
    destruct (fire_all rest s2) as [[r2 s3] l2].
    cbn [state_of fst snd] in *. rewrite IH, Hp, Hs1. by rewrite andb_assoc.
Qed.

Lemma advance_progress (t : Z) (s : State) :
  roomJoinInProgressRef (state_of (advance t s))
  = roomJoinInProgressRef s
    && forallb (λ tm, negb (is_reset (timer_action tm)))
         (filter (λ tm, timer_due tm ≤ t) (timers s)).
Proof.
  unfold advance. rewrite run_bind. cbn [get]. cbv iota beta.
  rewrite run_bind.
  set (rest := filter _ (timers s)).
  change (modify (set_timers rest) s)
    with (Normal tt, set_timers rest s, @nil Effect).
  cbv iota beta. rewrite run_bind.
  set (due := filter _ (timers s)).
  pose proof (fire_all_spec due (set_timers rest s)) as (Hr & _).
  pose proof (fire_all_progress due (set_timers rest s)) as Hp.
  destruct (fire_all due (set_timers rest s)) as [[r1 s2] l1].
  cbn [result_of state_of log_of fst snd] in *. subst r1. cbn.
  assert (roomJoinInProgressRef (set_timers rest s) = roomJoinInProgressRef s)
    as <- by by destruct s.
  rewrite <- Hp. by destruct s2.
Qed.

(** ** What holds in every state the provider can reach *)

Lemma wf_initial (u : option string) : wf (initial u).
Proof.
  unfold wf; cbn. split_and!; try done; try lia; [by left|].
  by intros tm ?%elem_of_nil.
Qed.

Lemma wf_advance (t : Z) (s : State) : wf s → wf (state_of (advance t s)).
Proof.
  intros (H1 & H2 & H3 & H4 & H5).
  pose proof (advance_spec t s) as (_ & Hss & Htm & _).
  pose proof (advance_progress t s) as Hp.
  destruct Hss as (Hu & Hc & Hsr & Hi & Hcur & Hl & _ & Hto & Hn).
  unfold wf. rewrite Hc, Hi, Hcur, Hl, Hto, Hn, Htm, Hp. split_and!; try done.
  - intros [Hprog _]%andb_true_iff. by apply H3.
  - intros tm [_ Hin]%list_elem_of_filter. by apply H5.
Qed.

Ltac wf_timers :=
  repeat match goal with
         | H : _ ∈ insert_timer _ _ |- _ =>
             apply elem_of_insert_timer in H as [-> | H]
         | H : _ ∈ filter _ _ |- _ => apply list_elem_of_filter in H as [? H]
         end.

Lemma wf_joinRoom (roomName : option string) (s : State) :
  wf s → wf (state_of (joinRoom roomName s)).
Proof.
  intros (H1 & H2 & H3 & H4 & H5). unfold wf.
  destruct roomName as [room|]; destruct_guards s; unfold_handlers;
    try (split_and!; done).
  all: destruct (String.eqb room ""); cbn; try (split_and!; done).
  all: destruct (bool_decide (lastJoinedRoomRef0 = Some room)); cbn;
    try (split_and!; done).
  all: try (destruct (bool_decide (currentRoomRef0 = Some room)); cbn;
            try (split_and!; done)).
  all: destruct (timer_truthy roomJoinTimeoutRef0) as [old|] eqn:Hold; cbn.
  all: split_and!; try done; try lia; try (by right); try (by eexists).
  all: intros tm Htm; wf_timers; cbn; try (split_and!; (done || lia)).
  all: destruct (H5 tm Htm) as (? & Hr & ?); split_and!; try done.
  all: intros Hreset; specialize (Hr Hreset); subst.
  all: unfold timer_truthy in Hold; destruct (Nat.eqb (timer_id tm) 0) eqn:E;
    simplify_eq; try done.
  all: apply Nat.eqb_eq in E; lia.
Qed.

Ltac wf_finish H5 :=
  split_and!; try done; try lia; try (by left); try (by right);
  try (by eexists); try (intros; congruence);
  try (intros tm Htm; wf_timers; cbn;
       try (split_and!; (done || lia));
       destruct (H5 tm Htm) as (? & ? & ?); split_and!; done).

Lemma on_online_users_state (data : JsVal) (s : State) :
  (∃ users, state_of (on_online_users data s) = set_onlineUsers users s)
  ∧ count is_membership_announcement (log_of (on_online_users data s))
    = 0%nat.
Proof.
  destruct data as [| |b|z|str|elts|fields]; unfold_handlers;
    try destruct b; try destruct (Z.eqb z 0);
    try destruct (String.eqb str ""); cbn; eauto.
  destruct (assoc "users" fields); cbn; eauto.
Qed.

(** Each handler keeps [wf], and only [joinRoom] announces membership. *)
Lemma wf_handle_announce (i : Input) (s : State) :
  wf s →
  wf (state_of (handle i s))
  ∧ ((∀ roomName, i ≠ CallJoinRoom roomName) →
     count is_membership_announcement (log_of (handle i s)) = 0%nat).
Proof.
  destruct i; cbn [handle];
    try (intros Hwf; split;
         [by apply wf_joinRoom | intros H; exfalso; by eapply H]).
  7: { destruct (on_online_users_state data s) as [[users Hs] Hl].
       rewrite Hs. intros Hwf. split; [by destruct s | done]. }
  all: intros (H1 & H2 & H3 & H4 & H5); unfold wf.
  all: try destruct data as [[[name|]]|].
  all: try destruct roomName as [room|].
  all: try destruct content as [c|].
  all: try destruct friendUsername as [friend|].
  all: try destruct toUsername as [to|].
  all: try destruct socket_connected.
  all: destruct_guards s; unfold_handlers; case_tests.
  all: try (by specialize (H1 eq_refl)).
  all: split; [wf_finish H5 | intros _; reflexivity].
Qed.

Lemma wf_handle (i : Input) (s : State) :
  wf s → wf (state_of (handle i s)).
Proof. intros Hwf. by apply wf_handle_announce. Qed.

Lemma wf_step (t : Z) (i : Input) (s : State) :
  wf s → wf (state_of (step t i s)).
Proof.
  intros Hwf. rewrite step_unfold.
  pose proof (wf_handle i _ (wf_advance t s Hwf)) as H.
  by destruct (handle i (state_of (advance t s))) as [[r s2] l2].
Qed.

Lemma wf_run (trace : list (Z * Input)) (s : State) :
  wf s → wf (run trace s).1.
Proof.
  revert s. induction trace as [|[t i] trace IH]; intros s Hwf; [done|].
  rewrite run_cons_state. by apply IH, wf_step.
Qed.

(** ** Membership announcements come from [joinRoom] alone *)




(** ** [joinRoom] in a reachable state *)

Lemma wf_join_is_noop (s : State) (room : string) :
  wf s → join_is_noop s room = bool_decide (currentRoomRef s = Some room).
Proof.
  intros (_ & H2 & H3 & _). unfold join_is_noop.
  destruct (roomJoinInProgressRef s).
  - destruct (H3 eq_refl) as [r Hr]. destruct H2 as [H2 | H2]; [congruence|].
    rewrite <- H2. by rewrite andb_false_r, orb_false_r.
  - by rewrite andb_true_r.
Qed.

(** X2.  In a state reached from the initial one, on a live connection,
    [joinRoom(A)] announces A exactly when A is not already the current
    room, and does nothing at all when it is. *)
Theorem X2_joinRoom_announces_iff_new_room (u : option string)
    (trace : list (Z * Input)) (A me : string) :
  let s := (run trace (initial u)).1 in
  live s → user s = Some me → A ≠ "" →
  let r := joinRoom (Some A) s in
  (currentRoomRef s = Some A → state_of r = s ∧ log_of r = [])
  ∧ (currentRoomRef s ≠ Some A →
     log_of r = [Emit (user_connected me A)]
     ∧ currentRoomRef (state_of r) = Some A
     ∧ roomJoinInProgressRef (state_of r) = true).
Proof.
  intros s Hlive Hme HA r.
  pose proof (wf_run trace (initial u) (wf_initial u)) as Hwf. fold s in Hwf.
  destruct (joinRoom_live s A me Hlive Hme HA) as (_ & _ & _ & H).
  fold r in H. rewrite (wf_join_is_noop s A Hwf) in H.
  split; intros Hc.
  - by rewrite bool_decide_eq_true_2 in H.
  - rewrite bool_decide_eq_false_2 in H by done. tauto.
Qed.

(** The statement at work: Carol, connected, joins A and then asks again. *)
Lemma X2_joinRoom_announces_iff_new_room_witness :
  log_of (joinRoom (Some "A") (run [(0, Connect)] (initial (Some "carol"))).1)
  = [Emit (user_connected "carol" "A")].
Proof.
  apply (X2_joinRoom_announces_iff_new_room (Some "carol") [(0, Connect)] "A" "carol").
  - apply carol_connected_live.
  - reflexivity.
  - discriminate.
  - discriminate.
Defined.

(** ** The two timers of a join *)

(** What a join that starts leaves armed. *)
Lemma joinRoom_started (s : State) (room : string) :
  wf s → live s → room ≠ "" → join_is_noop s room = false →
  let s1 := state_of (joinRoom (Some room) s) in
  now s1 = now s ∧ socketRef s1 = true ∧ currentRoomRef s1 = Some room
  ∧ roomJoinInProgressRef s1 = true
  ∧ (∃ tm, tm ∈ timers s1 ∧ is_reset (timer_action tm) = true
           ∧ timer_due tm = now s + 3000)
  ∧ (∀ tm, tm ∈ timers s1 → is_reset (timer_action tm) = true →
           timer_due tm = now s + 3000)
  ∧ (∃ tm, tm ∈ timers s1 ∧ timer_action tm = RequestOnlineUsers true room
           ∧ timer_due tm = now s + 1000).
Proof.
  intros (_ & _ & _ & H4 & H5) (Hsock & [me Hme] & Hconn & Hinit) Hroom Hnoop.
  apply String.eqb_neq in Hroom. unfold join_is_noop in Hnoop.
  destruct s as [u c ? sr cur ? ? ini prog last tmo ? ? tms]; cbn in *; subst.
  unfold_handlers. rewrite Hroom. cbn.
  destruct prog, (bool_decide (last = Some room)),
    (bool_decide (cur = Some room)); try discriminate; cbn.
  all: destruct (timer_truthy tmo) as [old|] eqn:Hold; cbn.
  all: split_and!; try done.
  all: try match goal with
           | |- ∃ tm, tm ∈ insert_timer ?x (insert_timer ?y _)
                      ∧ is_reset _ = true ∧ _ =>
               exists x; split; [apply elem_of_insert_timer; by left | done]
           | |- ∃ tm, tm ∈ insert_timer ?x (insert_timer ?y _)
                      ∧ timer_action tm = RequestOnlineUsers _ _ ∧ _ =>
               exists y; split; [|done];
               apply elem_of_insert_timer; right;
               apply elem_of_insert_timer; by left
           end.
  all: intros tm Htm Hreset; wf_timers; try done.
  all: destruct (H5 tm Htm) as (Hpos & Hr & _); specialize (Hr Hreset); subst.
  all: unfold timer_truthy in Hold;
    destruct (Nat.eqb (timer_id tm) 0) eqn:E; simplify_eq; try done.
  all: apply Nat.eqb_eq in E; lia.
Qed.

(** X3.  In a state reached from the initial one, a join that starts stays
    pending for three seconds and no longer when only time passes: no
    time-out left over from an earlier join ends it early, and the
    time-out ends it whether or not the server has confirmed. *)
Theorem X3_join_pending_three_seconds (u : option string)
    (trace : list (Z * Input)) (A : string) (t : Z) :
  let s := (run trace (initial u)).1 in
  live s → A ≠ "" → currentRoomRef s ≠ Some A →
  let s1 := state_of (joinRoom (Some A) s) in
  roomJoinInProgressRef s1 = true
  ∧ (t < now s + 3000 →
     roomJoinInProgressRef (state_of (advance t s1)) = true)
  ∧ (now s + 3000 ≤ t →
     roomJoinInProgressRef (state_of (advance t s1)) = false).
Proof.
  intros s Hlive HA Hcur s1.
  pose proof (wf_run trace (initial u) (wf_initial u)) as Hwf. fold s in Hwf.
  assert (Hnoop : join_is_noop s A = false).
  { rewrite wf_join_is_noop by done. by apply bool_decide_eq_false_2. }
  destruct (joinRoom_started s A Hwf Hlive HA Hnoop)
    as (Hnow & _ & _ & Hprog & (tm0 & Hin0 & Hr0 & Hd0) & Hall & _).
  fold s1 in Hnow, Hprog, Hin0, Hall.
  rewrite advance_progress, Hprog. split_and!; [done | |]; intros Ht; cbn.
  - apply forallb_forall. intros tm [Hdue Hin]%list_elem_of_In%list_elem_of_filter.
    destruct (is_reset (timer_action tm)) eqn:Hr; [|done].
    specialize (Hall tm Hin Hr). lia.
  - apply not_true_is_false. intros Hf. rewrite forallb_forall in Hf.
    specialize (Hf tm0). rewrite Hr0 in Hf. cbn in Hf.
    assert (false = true); [|done]. apply Hf.
    apply list_elem_of_In, list_elem_of_filter. split; [lia | done].
Qed.

(** The statement at work: Carol's first join, seen two and four seconds
    later. *)
Lemma X3_join_pending_three_seconds_witness :
  let s1 := state_of (joinRoom (Some "A") (run [(0, Connect)] (initial (Some "carol"))).1) in
  roomJoinInProgressRef (state_of (advance 2000 s1)) = true.
Proof.
  intros s1.
  destruct (X3_join_pending_three_seconds (Some "carol") [(0, Connect)] "A" 2000)
    as (_ & Hbefore & _).
  - apply carol_connected_live.
  - discriminate.
  - discriminate.
  - apply Hbefore. vm_compute. reflexivity.
Defined.

(** X4.  A roster request leaves a timer only for the room that is current
    when the timer fires, and only while the socket is there: the request
    armed by a join the user has since moved on from is dropped. *)
Theorem X4_roster_request_only_for_current_room (s : State) (t : Z)
    (room : string) :
  Emit (who_is_online room) ∈ log_of (advance t s) →
  currentRoomRef s = Some room ∧ socketRef s = true.
Proof.
  rewrite advance_log. intros Hin.
  apply list_elem_of_In, in_flat_map in Hin as (tm & _ & Hin).
  apply list_elem_of_In in Hin.
  destruct s as [? ? ? sr cur ? ? ? ? ? ? ? ? ?].
  destruct (timer_action tm) as [n | c r | r | f | to c];
    unfold_handlers; try by apply elem_of_nil in Hin.
  - destruct sr, c; cbn in Hin; try by apply elem_of_nil in Hin.
    case_bool_decide; cbn in Hin; [|by apply elem_of_nil in Hin].
    apply list_elem_of_singleton in Hin. by simplify_eq.
  - destruct sr; cbn in Hin; [|by apply elem_of_nil in Hin].
    by apply list_elem_of_singleton in Hin.
  - destruct sr; cbn in Hin; [|by apply elem_of_nil in Hin].
    by apply list_elem_of_singleton in Hin.
Qed.

(** The statement at work: Carol joins A, switches to B at once, and a
    second later the requests fall due. *)
Lemma X4_roster_request_only_for_current_room_witness :
  let s := (run [(10, CallJoinRoom (Some "A")); (20, CallJoinRoom (Some "B"))]
              carol_connected).1 in
  log_of (advance 2000 s) = [Emit (who_is_online "B")]
  ∧ currentRoomRef s = Some "B".
Proof.
  intros s. split; [reflexivity|].
  apply (X4_roster_request_only_for_current_room s 2000 "B").
  vm_compute. apply list_elem_of_here.
Defined.

(** X5.  On a live connection a join that starts has its roster requested
    once a second has passed, provided only time passes meanwhile. *)
Theorem X5_roster_requested_after_join (u : option string)
    (trace : list (Z * Input)) (A : string) (t : Z) :
  let s := (run trace (initial u)).1 in
  live s → A ≠ "" → currentRoomRef s ≠ Some A → now s + 1000 ≤ t →
  Emit (who_is_online A) ∈ log_of (advance t (state_of (joinRoom (Some A) s))).
Proof.
  intros s Hlive HA Hcur Ht.
  pose proof (wf_run trace (initial u) (wf_initial u)) as Hwf. fold s in Hwf.
  assert (Hnoop : join_is_noop s A = false).
  { rewrite wf_join_is_noop by done. by apply bool_decide_eq_false_2. }
  destruct (joinRoom_started s A Hwf Hlive HA Hnoop)
    as (Hnow & Hsock & Hc & _ & _ & _ & (tm & Hin & Ha & Hd)).
  set (s1 := state_of (joinRoom (Some A) s)) in *.
  rewrite advance_log. apply list_elem_of_In, in_flat_map.
  exists tm. split.
  - apply list_elem_of_In, list_elem_of_filter. split; [lia | done].
  - rewrite Ha. destruct s1; cbn in *; subst. unfold_handlers.
    rewrite bool_decide_eq_true_2 by done. cbn. by left.
Qed.

Lemma X5_roster_requested_after_join_witness :
  Emit (who_is_online "A")
  ∈ log_of (advance 1500
              (state_of (joinRoom (Some "A")
                           (run [(0, Connect)] (initial (Some "carol"))).1))).
Proof.
  apply (X5_roster_requested_after_join (Some "carol") [(0, Connect)] "A" 1500).
  - apply carol_connected_live.
  - discriminate.
  - discriminate.
  - vm_compute. discriminate.
Defined.

(** ** After the teardown *)

Lemma advance_without_socket (t : Z) (s : State) :
  socketRef s = false → count is_emit (log_of (advance t s)) = 0%nat.
Proof.
  intros Hs. rewrite advance_log.
  induction (filter _ (timers s)) as [|tm rest IH]; [done|].
  cbn [flat_map]. rewrite count_app, IH.
  destruct s; cbn in Hs; subst.
  destruct (timer_action tm); unfold_handlers; done.
Qed.

Lemma call_without_socket (t : Z) (i : Input) (s : State) :
  socketRef s = false → is_call (t, i) = true →
  result_of (step t i s) = Normal tt
  ∧ socketRef (state_of (step t i s)) = false
  ∧ count is_emit (log_of (step t i s)) = 0%nat.
Proof.
  intros Hs Hi. rewrite step_unfold.
  pose proof (advance_spec t s) as (_ & Hss & _).
  pose proof (advance_without_socket t s Hs) as Hq.
  assert (Hs1 : socketRef (state_of (advance t s)) = false).
  { destruct Hss as (_ & _ & ? & _). congruence. }
  destruct (advance t s) as [[r1 s1] l1]. cbn [state_of log_of fst snd] in *.
  destruct s1 as [[me|] [] ? sr ? ? ? [] [] ? ? ? ? ?]; cbn in Hs1; subst.
  all: destruct i; try discriminate Hi; cbn [handle].
  all: try destruct roomName as [room|].
  all: try destruct content as [c|].
  all: try destruct friendUsername as [friend|].
  all: try destruct toUsername as [to|].
  all: unfold_handlers; case_tests; rewrite ?count_app, ?Hq; done.
Qed.

(** X6.  Once the socket is gone from [socketRef], as after the effect's
    cleanup, nothing is emitted any more: not by any sequence of calls of
    the exported functions, which all return normally, and not by the
    timers still armed. *)
Theorem X6_nothing_emitted_after_cleanup (s : State) (socket_connected : bool)
    (trace : list (Z * Input)) :
  forallb is_call trace = true →
  count is_emit (run trace (state_of (cleanup socket_connected s))).2 = 0%nat
  ∧ socketRef (run trace (state_of (cleanup socket_connected s))).1 = false.
Proof.
  assert (Hc : socketRef (state_of (cleanup socket_connected s)) = false).
  { destruct s as [? ? ? ? ? ? ? ? ? ? tmo ? ? ?], socket_connected;
      unfold_handlers; destruct (timer_truthy tmo); done. }
  revert Hc. generalize (state_of (cleanup socket_connected s)). clear s.
  induction trace as [|[t i] trace IH]; intros s Hs Hall; [done|].
  cbn [forallb] in Hall. apply andb_true_iff in Hall as [Hi Hall].
  destruct (call_without_socket t i s Hs Hi) as (_ & Hs' & Hl).
  rewrite run_cons_log, run_cons_state, count_app, Hl.
  by apply IH.
Qed.

(** The statement at work: Carol's provider is torn down while a join is
    pending, and the view still calls in. *)
Lemma X6_nothing_emitted_after_cleanup_witness :
  (run [(100, CallSendMessage (Some "Chat Room 1") (Some "hi"));
        (200, CallJoinRoom (Some "Chat Room 2"));
        (5000, CallLeaveRoom (Some "Chat Room 1"))]
     (state_of (cleanup true carol_in_room))).2
  = [Console Warn "Cannot send message - missing requirements";
     Toast ToastError "Not connected to server";
     Console Warn "Cannot join room - missing requirements";
     Toast ToastError "Not connected to server"]
  ∧ count is_emit
      (run [(100, CallSendMessage (Some "Chat Room 1") (Some "hi"));
            (200, CallJoinRoom (Some "Chat Room 2"));
            (5000, CallLeaveRoom (Some "Chat Room 1"))]
         (state_of (cleanup true carol_in_room))).2 = 0%nat.
Proof.
  split; [reflexivity|].
  apply (X6_nothing_emitted_after_cleanup carol_in_room true). reflexivity.
Defined.

(** ** While the connection is down *)






(** ** Why the socket is gone *)

(** X8.  The disconnect handler itself asks the socket to connect again
    for one reason only, a disconnect by the server; a disconnect by the
    client, a closed transport and a transport error pass without a
    toast; every other reason shows exactly one. *)
Theorem X8_disconnect_reasons (s : State) (reason : string) :
  let log := log_of (on_disconnect reason s) in
  (SocketConnect ∈ log ↔ reason = "io server disconnect")
  ∧ count is_toast log = (if silent_reason reason then 0 else 1)%nat
  ∧ count is_emit log = 0%nat.
Proof.
  destruct s as [? ? ? ? ? ? ? ? ? ? tmo ? ? ?]. unfold silent_reason.
  unfold_handlers. destruct (timer_truthy tmo); cbn.
  all: destruct (String.eqb reason "io server disconnect") eqn:E1; cbn;
    [ apply String.eqb_eq in E1; subst; cbn; split_and!; try done;
      split; [done | intros _; set_solver] | ].
  all: apply String.eqb_neq in E1.
  all: destruct (String.eqb reason "io client disconnect") eqn:E2; cbn;
    [split_and!; try done; split; [by intros ?%elem_of_nil | done]|].
  all: destruct (String.eqb reason "ping timeout") eqn:E3; cbn;
    [ apply String.eqb_eq in E3; subst; cbn; split_and!; try done;
      split; [set_solver | done] | ].
  all: destruct (String.eqb reason "transport close") eqn:E4; cbn;
    [split_and!; try done; split; [by intros ?%elem_of_nil | done]|].
  all: destruct (String.eqb reason "transport error") eqn:E5; cbn;
    [split_and!; try done; split; [by intros ?%elem_of_nil | done]|].
  all: split_and!; try done; split; [set_solver | done].
Qed.

(** ** Leaving and joining again *)

(** X9.  On a live connection, joining a room, leaving it and joining it
    again announces the room, the leave and the room again: leaving the
    current room clears the membership, whether or not the join was
    still pending, so that the second join is not taken for a
    repetition. *)
Theorem X9_join_leave_join (s : State) (A me : string) :
  live s → user s = Some me → A ≠ "" → join_is_noop s A = false →
  let r1 := joinRoom (Some A) s in
  let r2 := leaveRoom (Some A) (state_of r1) in
  let r3 := joinRoom (Some A) (state_of r2) in
  List.filter is_emit (log_of r1 ++ log_of r2 ++ log_of r3)
  = [Emit (user_connected me A); Emit (leave me A);
     Emit (user_connected me A)]
  ∧ currentRoomRef (state_of r2) = None
  ∧ roomJoinInProgressRef (state_of r2) = false
  ∧ currentRoomRef (state_of r3) = Some A.
Proof.
  intros (Hsock & _ & Hconn & Hinit) Hme HA Hnoop.
  apply String.eqb_neq in HA. unfold join_is_noop in Hnoop.
  destruct s as [u c ? sr cur ? ? ini prog last tmo ? ? tms]; cbn in *; subst.
  unfold_handlers. rewrite HA. cbn.
  destruct prog, (bool_decide (last = Some A)),
    (bool_decide (cur = Some A)); try discriminate; cbn.
  all: destruct (timer_truthy tmo) as [old|]; cbn.
  all: rewrite ?HA; cbn; rewrite !bool_decide_eq_true_2 by done; cbn.
  all: rewrite ?HA; cbn.
  all: rewrite ?(bool_decide_eq_false_2 (None = Some A)) by done; cbn.
  all: done.
Qed.

Lemma X9_join_leave_join_witness :
  List.filter is_emit
    (log_of (joinRoom (Some "A") carol_connected)
     ++ log_of (leaveRoom (Some "A") (state_of (joinRoom (Some "A") carol_connected)))
     ++ log_of (joinRoom (Some "A")
                  (state_of (leaveRoom (Some "A")
                     (state_of (joinRoom (Some "A") carol_connected))))))
  = [Emit (user_connected "carol" "A"); Emit (leave "carol" "A");
     Emit (user_connected "carol" "A")].
Proof.
  apply (X9_join_leave_join carol_connected "A" "carol").
  - apply carol_connected_live.
  - reflexivity.
  - discriminate.
  - reflexivity.
Defined.

(** ** Forgetting who was announced *)

Lemma user_joined_untracked (s : State) (name me : string) :
  user s = Some me → name ≠ "" → name ≠ me → name ∉ joinedUsersRef s →
  log_of (on_user_joined (Some (mkUserEvent (Some name))) s)
  = [joined_toast name].
Proof.
  intros Hu Hne Hme Hn. apply String.eqb_neq in Hne, Hme.
  destruct s as [u ? ? ? ? ? joined ? ? ? ? ? ? ?]; cbn in *; subst.
  unfold_handlers. rewrite Hne. cbn. rewrite Hme. cbn.
  by rewrite (bool_decide_eq_false_2 _ Hn).
Qed.

(** X10.  Once a [user_left] for another user has been handled, or a
    disconnect, or a reconnect, the next [user_joined] for that user is
    shown, whatever the tracker held before. *)
Theorem X10_tracker_forgets (s : State) (name me reason : string) (h : M unit) :
  user s = Some me → name ≠ "" → name ≠ me →
  h = on_user_left (Some (mkUserEvent (Some name)))
  ∨ h = on_disconnect reason ∨ h = on_reconnect →
  result_of (h s) = Normal tt
  ∧ (name ∉ joinedUsersRef (state_of (h s)))
  ∧ log_of (on_user_joined (Some (mkUserEvent (Some name))) (state_of (h s)))
    = [joined_toast name].
Proof.
  intros Hu Hne Hme Hh.
  assert (H : result_of (h s) = Normal tt
              ∧ (name ∉ joinedUsersRef (state_of (h s)))
              ∧ user (state_of (h s)) = Some me).
  { apply String.eqb_neq in Hne, Hme.
    destruct s as [u ? ? ? ? ? joined ? ? ? tmo ? ? tms]; cbn in *; subst.
    destruct Hh as [-> | [-> | ->]]; unfold_handlers.
    - rewrite Hne. cbn. rewrite Hme. cbn. split_and!; [done | set_solver | done].
    - destruct (timer_truthy tmo); cbn; case_tests;
        (split_and!; [done | apply not_elem_of_empty | done]).
    - split_and!; [done | apply not_elem_of_empty | done]. }
  destruct H as (Hr & Hn & Hu'). split_and!; [done | done |].
  by apply (user_joined_untracked _ name me).
Qed.

Lemma X10_tracker_forgets_witness :
  let s := (run [(1000, joined_event "alice")] carol_connected).1 in
  log_of (on_user_joined (Some (mkUserEvent (Some "alice"))) s) = []
  ∧ log_of (on_user_joined (Some (mkUserEvent (Some "alice")))
              (state_of (on_user_left (Some (mkUserEvent (Some "alice"))) s)))
    = [joined_toast "alice"].
Proof.
  intros s. split; [reflexivity|].
  apply (X10_tracker_forgets s "alice" "carol" ""
           (on_user_left (Some (mkUserEvent (Some "alice")))));
    [reflexivity | discriminate | discriminate | by left].
Defined.

(** ** [sendMessage] with content *)


(** ** The private functions in a reachable state *)



(** ** Trimming twice *)








(** ** Sending from the room view *)



(** ** The local copy of a message sent over REST *)

(** X15.  When the REST call of the fallback has resolved, the mounted room
    view appends one local copy of the message, under an id made of
    "local-" and the clock, and clears the draft.  The copy does not
    stand in for the server's own message: a [receive_message] for the
    room on display with a numeric id the sequence does not hold is
    appended after it, so that the message then shows twice. *)
Theorem X15_chat_local_copy_not_deduplicated (room content iso_now : string)
    (user : option (string * bool)) (date_now : Z) (c : Chat.Composer)
    (s : State) (m : Chat.Message) (n : Z) :
  Chat.mountedRef c = true → room ≠ "" →
  Chat.id m = PNum n → Chat.room_name m = Some room →
  (PNum n ∉ map Chat.id (Chat.messages c)) →
  ∃ copy,
    Chat.handleSendMessage_resume room content true user date_now iso_now c s
    = (Normal (Chat.mkComposer (Chat.messages c ++ [copy]) "" false true), s, [])
    ∧ Chat.id copy = PStr ("local-" +:+ pretty date_now)
    ∧ Chat.content copy = content
    ∧ Chat.handleNewMessage room true (Some m) (Chat.messages c ++ [copy])
      = Chat.messages c ++ [copy; m].
Proof.
  intros Hm Hroom Hid Hrn Hnew. eexists. split_and!.
  - unfold Chat.handleSendMessage_resume. rewrite Hm. reflexivity.
  - reflexivity.
  - reflexivity.
  - unfold Chat.handleNewMessage. rewrite Hrn. cbn [truthy_str negb orb].
    apply String.eqb_neq in Hroom. rewrite Hroom. cbn.
    rewrite bool_decide_eq_true_2 by done. cbn.
    destruct (Chat.isDuplicate _ m) eqn:Hd.
    + apply Chat_isDuplicate_iff in Hd. rewrite map_app, Hid in Hd.
      apply elem_of_app in Hd as [Hd | Hd]; [done|].
      by apply list_elem_of_singleton in Hd.
    + by rewrite <- app_assoc.
Qed.

Lemma X15_chat_local_copy_not_deduplicated_witness :
  let m := Chat.mkMessage (PNum 7) (Some "Chat Room 1") (Some "carol") "hi"
             "2024-01-01T00:00:05Z" false false in
  ∃ copy,
    Chat.handleSendMessage_resume "Chat Room 1" "hi" true (Some ("carol", false))
      1704067200000 "2024-01-01T00:00:00Z"
      (Chat.mkComposer [] "hi" true true) carol_in_room
    = (Normal (Chat.mkComposer ([] ++ [copy]) "" false true), carol_in_room, [])
    ∧ Chat.id copy = PStr ("local-" +:+ pretty 1704067200000)
    ∧ Chat.content copy = "hi"
    ∧ Chat.handleNewMessage "Chat Room 1" true (Some m) ([] ++ [copy])
      = [] ++ [copy; m].
Proof.
  intros m.
  apply (X15_chat_local_copy_not_deduplicated "Chat Room 1" "hi"
           "2024-01-01T00:00:00Z" (Some ("carol", false)) 1704067200000
           (Chat.mkComposer [] "hi" true true) carol_in_room m 7).
  - reflexivity.
  - discriminate.
  - reflexivity.
  - reflexivity.
  - apply not_elem_of_nil.
Defined.

(** ** The room view across navigation and reconnection *)

#[local] Arguments left_state : simpl never.

Lemma leaveRoom_run (s : State) (room me : string) :
  socketRef s = true → user s = Some me → room ≠ "" →
  leaveRoom (Some room) s
  = (Normal tt,
     (if bool_decide (Some room = currentRoomRef s) then left_state s else s),
     [Emit (leave me room)]).
Proof.
  intros Hs Hu Hr. apply String.eqb_neq in Hr.
  destruct s; cbn in *; subst. unfold_handlers. rewrite Hr. cbn.
  unfold left_state. by case_bool_decide.
Qed.

Lemma joinRoom_run (s : State) (room me : string) :
  live s → user s = Some me → room ≠ "" →
  ∃ s1,
    joinRoom (Some room) s
    = (Normal tt, s1,
       if join_is_noop s room then [] else [Emit (user_connected me room)])
    ∧ live s1 ∧ user s1 = Some me
    ∧ if join_is_noop s room then s1 = s
      else currentRoomRef s1 = Some room ∧ lastJoinedRoomRef s1 = Some room
           ∧ roomJoinInProgressRef s1 = true.
Proof.
  intros Hl Hu Hr.
  destruct (joinRoom_live s room me Hl Hu Hr) as (H1 & H2 & H3 & H4).
  destruct (joinRoom (Some room) s) as [[r s1] l].
  cbn [result_of state_of log_of fst snd] in *. subst r.
  exists s1. destruct (join_is_noop s room).
  - destruct H4 as [-> ->]. done.
  - destruct H4 as (-> & ? & ? & ?). done.
Qed.

Lemma on_disconnect_run (s : State) (reason : string) :
  ∃ s1 l,
    on_disconnect reason s = (Normal tt, s1, l)
    ∧ List.filter is_emit l = []
    ∧ socketRef s1 = socketRef s ∧ user s1 = user s
    ∧ connected s1 = false
    ∧ currentRoomRef s1 = currentRoomRef s
    ∧ lastJoinedRoomRef s1 = None
    ∧ roomJoinInProgressRef s1 = false.
Proof.
  destruct s as [? ? ? ? ? ? ? ? ? ? tmo ? ? ?]. unfold_handlers.
  destruct (timer_truthy tmo); cbn; case_tests; by eexists _, _.
Qed.

Lemma on_reconnect_run (s : State) :
  ∃ s1 l,
    on_reconnect s = (Normal tt, s1, l)
    ∧ List.filter is_emit l = []
    ∧ socketRef s1 = socketRef s ∧ user s1 = user s
    ∧ connected s1 = true ∧ socketInitializedRef s1 = true
    ∧ currentRoomRef s1 = currentRoomRef s
    ∧ lastJoinedRoomRef s1 = lastJoinedRoomRef s
    ∧ roomJoinInProgressRef s1 = false.
Proof. destruct s. unfold_handlers. by eexists _, _. Qed.

(** Unfolding the room view down to the provider's functions, which stay
    folded. *)
Ltac unfold_view :=
  unfold Chat.run_room_effect, Chat.room_effect, Chat.room_cleanup,
    Chat.mounted_view, mbind, mret, M_bind, M_ret, get; cbn.

#[local] Opaque joinRoom leaveRoom on_disconnect on_reconnect.

(** X16.  When the route changes from room A to room B on a live
    connection, the room view announces the leave of A twice, once from
    the cleanup of its effect and once from the effect's own "leave
    previous room" step, and then the join of B. *)
Theorem X16_room_switch_leaves_twice (s : State) (A B me : string) :
  live s → user s = Some me → A ≠ "" → B ≠ "" → A ≠ B →
  join_is_noop s A = false →
  let r := navigate [A; B] Chat.mounted_view s in
  result_of r
  = Normal (Chat.mkRoomView (Chat.mkRoomRefs (Some B) true) (Some B))
  ∧ List.filter is_emit (log_of r)
    = [Emit (user_connected me A); Emit (leave me A); Emit (leave me A);
       Emit (user_connected me B)]
  ∧ currentRoomRef (state_of r) = Some B.
Proof.
  intros Hl Hme HA HB HAB Hnoop.
  assert (HBA : Some A ≠ Some B) by congruence.
  destruct (joinRoom_run s A me Hl Hme HA) as (s1 & E1 & Hl1 & Hme1 & H1).
  rewrite Hnoop in E1, H1. destruct H1 as (Hc1 & Hlast1 & Hp1).
  assert (Hl2 : live (left_state s1)).
  { destruct Hl1 as (? & ? & ? & ?). by split_and!. }
  destruct (joinRoom_run (left_state s1) B me Hl2 Hme1 HB)
    as (s2 & E2 & Hl2' & Hme2 & H2).
  assert (Hn2 : join_is_noop (left_state s1) B = false) by reflexivity.
  rewrite Hn2 in E2, H2. destruct H2 as (Hc2 & _).
  pose proof (leaveRoom_run s1 A me) as L1.
  rewrite (bool_decide_eq_true_2 (Some A = currentRoomRef s1)) in L1 by done.
  pose proof (leaveRoom_run (left_state s1) A me) as L2.
  rewrite bool_decide_eq_false_2 in L2 by done.
  destruct Hl as (_ & _ & Hc & _). destruct Hl1 as (Hs1 & _ & Hcn1 & _).
  apply String.eqb_neq in HA, HB.
  cbn [navigate]. unfold_view. rewrite HA, Hc. cbn. rewrite E1. cbn.
  rewrite bool_decide_eq_true_2 by done.
  rewrite L1 by (done || by apply String.eqb_neq). cbn.
  change (connected (left_state s1)) with (connected s1).
  rewrite HB, Hcn1. cbn. rewrite (bool_decide_eq_false_2 _ HBA). cbn.
  rewrite HA. cbn. rewrite L2 by (done || by apply String.eqb_neq). cbn.
  rewrite E2. cbn. done.
Qed.

Lemma X16_room_switch_leaves_twice_witness :
  List.filter is_emit
    (log_of (navigate ["A"; "B"] Chat.mounted_view carol_connected))
  = [Emit (user_connected "carol" "A"); Emit (leave "carol" "A");
     Emit (leave "carol" "A"); Emit (user_connected "carol" "B")].
Proof.
  apply (X16_room_switch_leaves_twice carol_connected "A" "B" "carol").
  - apply carol_connected_live.
  - reflexivity.
  - discriminate.
  - discriminate.
  - discriminate.
  - reflexivity.
Defined.

(** X17.  With the room view mounted in room A on a live connection, a
    disconnect followed by a reconnect ends with A announced again: the
    render after the disconnect runs the effect's cleanup, whose
    [leaveRoom(A)] clears the current room the disconnect handler had
    left in place, so that the [joinRoom(A)] of the render after the
    reconnect is not taken for a repetition. *)
Theorem X17_view_rejoins_after_reconnect (s : State) (A me reason : string) :
  live s → user s = Some me → A ≠ "" → join_is_noop s A = false →
  let r := drop_and_return A reason s in
  result_of r
  = Normal (Chat.mkRoomView (Chat.mkRoomRefs (Some A) true) (Some A))
  ∧ List.filter is_emit (log_of r)
    = [Emit (user_connected me A); Emit (leave me A);
       Emit (user_connected me A)]
  ∧ currentRoomRef (state_of r) = Some A
  ∧ live (state_of r).
Proof.
  intros Hl Hme HA Hnoop.
  destruct (joinRoom_run s A me Hl Hme HA) as (s1 & E1 & Hl1 & Hme1 & H1).
  rewrite Hnoop in E1, H1. destruct H1 as (Hc1 & _).
  destruct (on_disconnect_run s1 reason)
    as (s2 & l2 & E2 & Hl2 & Hs2 & Hu2 & Hcn2 & Hc2 & Hlast2 & Hp2).
  destruct Hl1 as (Hs1 & _). rewrite Hs1 in Hs2. rewrite Hme1 in Hu2.
  pose proof (leaveRoom_run s2 A me Hs2 Hu2 HA) as L.
  rewrite bool_decide_eq_true_2 in L by congruence.
  destruct (on_reconnect_run (left_state s2))
    as (s3 & l3 & E3 & Hl3 & Hs3 & Hu3 & Hcn3 & Hi3 & Hc3 & Hlast3 & Hp3).
  change (socketRef (left_state s2)) with (socketRef s2) in Hs3.
  change (user (left_state s2)) with (user s2) in Hu3.
  change (currentRoomRef (left_state s2)) with (@None string) in Hc3.
  rewrite Hs2 in Hs3. rewrite Hu2 in Hu3.
  assert (Hlive3 : live s3) by (split_and!; [done | by eexists | done | done]).
  destruct (joinRoom_run s3 A me Hlive3 Hu3 HA) as (s4 & E4 & Hl4 & _ & H4).
  assert (Hn3 : join_is_noop s3 A = false).
  { unfold join_is_noop. rewrite Hp3, Hc3. cbn.
    by rewrite bool_decide_eq_false_2. }
  rewrite Hn3 in E4, H4. destruct H4 as (Hc4 & _).
  destruct Hl as (_ & _ & Hc & _). apply String.eqb_neq in HA.
  unfold drop_and_return. unfold_view. rewrite HA, Hc. cbn. rewrite E1. cbn.
  rewrite E2. cbn. rewrite bool_decide_eq_true_2 by done.
  rewrite L. cbn. change (connected (left_state s2)) with (connected s2).
  rewrite HA, Hcn2. cbn. rewrite E3. cbn. rewrite HA, Hcn3. cbn.
  rewrite bool_decide_eq_true_2 by done. cbn. rewrite E4. cbn.
  rewrite List.filter_app, Hl2. cbn. rewrite List.filter_app, Hl3. cbn. done.
Qed.

Lemma X17_view_rejoins_after_reconnect_witness :
  List.filter is_emit
    (log_of (drop_and_return "A" "transport close" carol_connected))
  = [Emit (user_connected "carol" "A"); Emit (leave "carol" "A");
     Emit (user_connected "carol" "A")].
Proof.
  apply (X17_view_rejoins_after_reconnect carol_connected "A" "carol").
  - apply carol_connected_live.
  - reflexivity.
  - discriminate.
  - reflexivity.
Defined.

#[local] Transparent joinRoom leaveRoom on_disconnect on_reconnect.

(** ** Relative time stamps *)


(** ** The registration form *)


(** ** Sending from the private conversation view *)


